(** * disk_usage.py: the Home Assistant disk usage reporter

    A shallow embedding of [src/disk_usage.py] and the properties of its
    reporter loop.

    The program is one function, [main]: three start-up assertions and a
    [while True] loop that samples the disk, computes two percentages,
    builds a payload, posts it, logs, and sleeps.  The embedding keeps that
    shape:

    - Python [int] is [Z]; Python [float] is a binary64 value, represented
      by [spec_float] of the standard library ([prec = 53], [emax = 1024]);
    - the [/] of two integers is Python's true division, which returns the
      correctly rounded binary64 quotient ([int_truediv]);
    - exceptions, [assert] and [try ... except Exception] are an error
      monad [M] that also records the calls the program makes to the outside
      (disk query, log lines, HTTP POST, sleep) as a trace of [event]s;
    - what the outside answers in one iteration is a [World]; the endless
      loop is run against a list of worlds, one per iteration, and is still
      [Running] when the list is used up. *)

From Stdlib Require Import ZArith QArith Qabs String Ascii List Bool Lia Lqa.
From Stdlib Require Import Floats.SpecFloat.
Import ListNotations.
Open Scope string_scope.
Open Scope Z_scope.

(** ** Exceptions *)

(** The exception classes that matter to the program.  [KeyboardInterrupt]
    and [SystemExit] derive from [BaseException] only; every other class
    derives from [Exception]. *)
Inductive exc_class : Type :=
| KeyboardInterrupt
| SystemExit
| AssertionError
| ZeroDivisionError
| OverflowError
| FileNotFoundError
| PermissionError
| ConnectionError
| Timeout
| JSONDecodeError
| OtherException (name : string).

Record exn : Type := mkExn { exn_class : exc_class; exn_msg : string }.

(** [isinstance(e, Exception)] *)
Definition isinstance_Exception (e : exn) : bool :=
  match exn_class e with
  | KeyboardInterrupt | SystemExit => false
  | _ => true
  end.

Inductive result (A : Type) : Type :=
| Ok (a : A)
| Raise (e : exn).
Arguments Ok {A} a.
Arguments Raise {A} e.

(** ** Python floats and integer true division *)

Module PyFloat.

Definition prec : Z := 53.
Definition emax : Z := 1024.

Definition zero : spec_float := S754_zero false.

(** The rational value of a float (0 for the non-finite ones). *)
Definition SF2Q (f : spec_float) : Q :=
  match f with
  | S754_finite s m e =>
      let z := if s then Zneg m else Zpos m in
      match e with
      | Zneg k => z # (2 ^ k)
      | _ => inject_Z (z * 2 ^ e)
      end
  | _ => 0%Q
  end.

(** [n / d] rounded to the nearest integer, ties to even ([0 <= n], [0 < d]). *)
Definition round_half_even (n d : Z) : Z :=
  let q := n / d in
  match 2 * (n mod d) ?= d with
  | Lt => q
  | Gt => q + 1
  | Eq => if Z.even q then q else q + 1
  end.

(** [b * 2^k <= a], for an exponent [k] of either sign. *)
Definition scaled_le (b k a : Z) : bool :=
  if 0 <=? k then b * 2 ^ k <=? a else b <=? a * 2 ^ (- k).

(** [floor (log2 (a / b))] for positive [a] and [b]. *)
Definition quot_log2 (a b : Z) : Z :=
  let k := Z.log2 a - Z.log2 b in
  if scaled_le b k a then k else k - 1.

(** [a / (b * 2^e)] rounded to the nearest integer, ties to even. *)
Definition quot_round (a b e : Z) : Z :=
  if 0 <=? e then round_half_even a (b * 2 ^ e)
  else round_half_even (a * 2 ^ (- e)) b.

(** Mantissa and exponent of the binary64 nearest to [a / b], for positive
    [a] and [b]: the exponent is the one binary64 gives to numbers of the
    magnitude of [a / b] ([fexp], which stops at [emin] for subnormals),
    and a mantissa that rounds up to [2^53] is renormalised. *)
Definition divide_pos (a b : Z) : Z * Z :=
  let e := fexp prec emax (quot_log2 a b + 1) in
  let m := quot_round a b e in
  if m =? 2 ^ prec then (2 ^ (prec - 1), e + 1) else (m, e).

(** [a / b] on Python integers: [ZeroDivisionError] for [b = 0],
    [OverflowError] when the rounded quotient does not fit a float,
    otherwise the correctly rounded quotient (a signed zero when it
    rounds to zero). *)
Definition int_truediv (a b : Z) : result spec_float :=
  if b =? 0 then Raise (mkExn ZeroDivisionError "division by zero")
  else
    let s := xorb (a <? 0) (b <? 0) in
    if a =? 0 then Ok (S754_zero s)
    else
      let '(m, e) := divide_pos (Z.abs a) (Z.abs b) in
      if emax - prec <? e
      then Raise (mkExn OverflowError
                    "integer division result too large for a float")
      else match m with
           | Zpos p => Ok (S754_finite s p e)
           | _ => Ok (S754_zero s)
           end.

(** [x > 0] for a float [x] (false for NaN). *)
Definition gt_zero (x : spec_float) : bool := SFltb zero x.

(** [x <= 0] for a float [x] (false for NaN). *)
Definition le_zero (x : spec_float) : bool := SFleb x zero.

(** [bool(x)] for a float: false exactly for the two zeros. *)
Definition truthy (x : spec_float) : bool :=
  match x with
  | S754_zero _ => false
  | _ => true
  end.

(** The conversion of an integer to a float and the float division of
    the standard library, used to cross-check [int_truediv]. *)
Definition of_Z (z : Z) : spec_float := binary_normalize prec emax z 0 false.
Definition div (x y : spec_float) : spec_float := SFdiv prec emax x y.

End PyFloat.

(** ** Python values *)

(** The values that occur in the payload and in a decoded JSON body.  A
    [dict] is an association list in insertion order, which is the order
    in which Python keeps and serialises it. *)
#[warnings="-register-all"]
Inductive pyval : Type :=
| PNone
| PBool (b : bool)
| PInt (z : Z)
| PFloat (f : spec_float)
| PStr (s : string)
| PList (l : list pyval)
| PDict (d : list (string * pyval)).

(** [bool(v)]: what an [if v:] tests. *)
Definition truthy (v : pyval) : bool :=
  match v with
  | PNone => false
  | PBool b => b
  | PInt z => negb (z =? 0)
  | PFloat f => PyFloat.truthy f
  | PStr s => negb (s =? EmptyString)%string
  | PList l => match l with [] => false | _ => true end
  | PDict d => match d with [] => false | _ => true end
  end.

(** [bool(v)] for a value that is a [str] or [None], such as the result of
    [os.getenv]. *)
Definition truthy_str (v : option string) : bool :=
  match v with
  | Some s => negb (s =? EmptyString)%string
  | None => false
  end.

(** [d[k]] on a dict, [None] when the key is absent or [v] is no dict. *)
Definition dict_get (v : pyval) (k : string) : option pyval :=
  match v with
  | PDict d =>
      match find (fun kv => (fst kv =? k)%string) d with
      | Some kv => Some (snd kv)
      | None => None
      end
  | _ => None
  end.

(** The keys of a dict, in order. *)
Definition dict_keys (v : pyval) : list string :=
  match v with
  | PDict d => map fst d
  | _ => []
  end.

(** ** The outside world *)

(** What [shutil.disk_usage] returns. *)
Record Usage : Type := mkUsage { total : Z; used : Z; free : Z }.

(** A [requests.Response]: its status and what [response.json()] gives,
    the decoded body or the exception of the decoder. *)
Record Response : Type :=
  mkResponse { status_code : Z; response_json : result pyval }.

(** An object handed to a logging call. *)
Inductive pyobj : Type :=
| OVal (v : pyval)
| OResponse (r : Response)
| OExn (e : exn).

Inductive level : Type := DEBUG | ERROR.

(** The calls the program makes to the outside, in the order it makes them. *)
Inductive event : Type :=
| EDiskUsage (path : string)
| ELog (lvl : level) (fmt : string) (args : list pyobj)
| EPost (url : string) (headers : list (string * string)) (json : pyval)
| ESleep (secs : spec_float).

(** The answers of the outside during one iteration of the loop. *)
Record World : Type := mkWorld {
  shutil_disk_usage : string -> result Usage;
  requests_post : string -> list (string * string) -> pyval -> result Response;
  time_sleep : spec_float -> result unit
}.

(** ** The monad of the program: a trace of events and a result *)

Definition M (A : Type) : Type := (list event * result A)%type.

Definition ret {A : Type} (a : A) : M A := ([], Ok a).

Definition raise {A : Type} (e : exn) : M A := ([], Raise e).

Definition bind {A B : Type} (m : M A) (f : A -> M B) : M B :=
  match m with
  | (t, Ok a) => let (t', r) := f a in ((t ++ t')%list, r)
  | (t, Raise e) => (t, Raise e)
  end.

Notation "x <- m ;; k" := (bind m (fun x => k))
  (at level 61, m at next level, right associativity).
Notation "m ;; k" := (bind m (fun _ => k))
  (at level 61, right associativity).

(** A pure operation that may raise. *)
Definition lift {A : Type} (r : result A) : M A := ([], r).

(** A call to the outside: recorded, then answered. *)
Definition call {A : Type} (ev : event) (r : result A) : M A := ([ev], r).

(** [try: body except Exception as e: handler e].  An exception that is
    no instance of [Exception] passes through. *)
Definition try_except_Exception {A : Type}
    (body : M A) (handler : exn -> M A) : M A :=
  match body with
  | (t, Raise e) =>
      if isinstance_Exception e
      then let (t', r) := handler e in ((t ++ t')%list, r)
      else (t, Raise e)
  | (t, Ok a) => (t, Ok a)
  end.

(** [assert v, msg] for a [v] that is a [str] or [None]: what passes is a
    non-empty string. *)
Definition assert_str (v : option string) (msg : string) : M string :=
  match v with
  | Some s => if truthy_str v then ret s else raise (mkExn AssertionError msg)
  | None => raise (mkExn AssertionError msg)
  end.

(** [assert c, msg].  Assertions are enabled: the script is started by
    [#! /usr/bin/env python3], without [-O]. *)
Definition assert (c : bool) (msg : string) : M unit :=
  if c then ret tt else raise (mkExn AssertionError msg).

Definition logging_debug (fmt : string) (args : list pyobj) : M unit :=
  call (ELog DEBUG fmt args) (Ok tt).

Definition logging_error (fmt : string) (args : list pyobj) : M unit :=
  call (ELog ERROR fmt args) (Ok tt).

(** ** [os.path.join] (posixpath) *)

(** The POSIX implementation of [os.path.join], with [/] as the
    separator. *)

Module posixpath.

Definition sep : string := "/".

(** [s.startswith(sep)] *)
Definition startswith_sep (s : string) : bool := String.prefix sep s.

(** [s.endswith(sep)] *)
Fixpoint endswith_sep (s : string) : bool :=
  match s with
  | EmptyString => false
  | String c EmptyString => Ascii.eqb c "/"
  | String _ s' => endswith_sep s'
  end.

(** One round of the loop of [join]: an absolute component replaces the
    path, otherwise it is appended, with a separator unless the path is
    empty or ends with one. *)
Definition join_step (path b : string) : string :=
  if startswith_sep b then b
  else if (path =? EmptyString)%string || endswith_sep path then path ++ b
  else path ++ sep ++ b.

Definition join (a : string) (p : list string) : string :=
  fold_left join_step p a.

End posixpath.

(** ** The program *)

(** How far the endless loop got: it raised, or it is still running after
    the iterations that were observed. *)
Inductive outcome : Type :=
| Raised (e : exn)
| Running.

Section Reporter.

(** The parameters of [main] and the checked [key], as the loop sees
    them once the assertions have passed. *)
Variables (key hostname path mount ha_rest_api_url : string).
Variable interval : spec_float.

(** [(usage.used * 100) / usage.total] *)
Definition used_percentage (usage : Usage) : result spec_float :=
  PyFloat.int_truediv (used usage * 100) (total usage).

(** [(usage.free * 100) / usage.total] *)
Definition free_percentage (usage : Usage) : result spec_float :=
  PyFloat.int_truediv (free usage * 100) (total usage).

Definition headers : list (string * string) :=
  [("Authorization", "Bearer " ++ key)].

Definition json (usage : Usage) (used_pct free_pct : spec_float) : pyval :=
  PDict
    [("state", PFloat used_pct);
     ("attributes",
       PDict
         [("friendly_name", PStr (hostname ++ " " ++ mount ++ " Disk Usage"));
          ("unit_of_measurement", PStr "%");
          ("used_percentage", PFloat used_pct);
          ("free_percentage", PFloat free_pct);
          ("total_bytes", PInt (total usage));
          ("used_bytes", PInt (used usage));
          ("free_bytes", PInt (free usage))])].

(** [f"sensor.{hostname}_{mount}_disk_usage"] *)
Definition entity_id : string :=
  "sensor." ++ hostname ++ "_" ++ mount ++ "_disk_usage".

Definition url : string :=
  posixpath.join ha_rest_api_url ["states"; entity_id].

(** The [try] block: post, log the response, log its JSON when that is
    truthy. *)
Definition report (w : World) (payload : pyval) : M unit :=
  response <- call (EPost url headers payload)
                   (requests_post w url headers payload) ;;
  logging_debug "Got response %r" [OResponse response] ;;
  body <- lift (response_json response) ;;
  if truthy body
  then body' <- lift (response_json response) ;;
       logging_debug "Response JSON: %r" [OVal body']
  else ret tt.

(** The [except Exception as e] block. *)
Definition report_failed (e : exn) : M unit :=
  logging_error "Got exception: %r, %s" [OExn e; OExn e].

(** The body of [while True]. *)
Definition loop_body (w : World) : M unit :=
  usage <- call (EDiskUsage path) (shutil_disk_usage w path) ;;
  used_pct <- lift (used_percentage usage) ;;
  free_pct <- lift (free_percentage usage) ;;
  let payload := json usage used_pct free_pct in
  logging_debug "Posting to %r: json %r" [OVal (PStr url); OVal payload] ;;
  try_except_Exception (report w payload) report_failed ;;
  logging_debug "Sleeping %fs" [OVal (PFloat interval)] ;;
  call (ESleep interval) (time_sleep w interval).

(** [while True: body], against one world per iteration. *)
Fixpoint loop (ws : list World) : list event * outcome :=
  match ws with
  | [] => ([], Running)
  | w :: ws' =>
      match loop_body w with
      | (t, Ok _) => let (t', o) := loop ws' in ((t ++ t')%list, o)
      | (t, Raise e) => (t, Raised e)
      end
  end.

End Reporter.

(** The three assertions at the head of [main]; what they let through is
    the key and the URL, both non-empty. *)
Definition startup (getenv : string -> option string)
    (ha_rest_api_url : option string) (interval : spec_float)
  : M (string * string) :=
  key <- assert_str (getenv "HA_API_KEY")
           "Need to specify HA_API_KEY in environment!" ;;
  base <- assert_str ha_rest_api_url "Please specify HA_REST_API_URL" ;;
  assert (PyFloat.gt_zero interval) "Stubbornly refusing to run tight loop" ;;
  ret (key, base).

(** [main], in an environment [getenv] and against the worlds [ws]. *)
Definition main (getenv : string -> option string)
    (hostname path mount : string) (ha_rest_api_url : option string)
    (interval : spec_float) (ws : list World) : list event * outcome :=
  match startup getenv ha_rest_api_url interval with
  | (t, Raise e) => (t, Raised e)
  | (t, Ok (key, base)) =>
      let (t', o) := loop key hostname path mount base interval ws in
      ((t ++ t')%list, o)
  end.

(** ** Observations on traces *)

Definition is_disk_usage (ev : event) : bool :=
  match ev with EDiskUsage _ => true | _ => false end.

Definition is_error_log (ev : event) : bool :=
  match ev with ELog ERROR _ _ => true | _ => false end.

(** The URLs posted to, in order. *)
Definition posted_urls (t : list event) : list string :=
  flat_map (fun ev => match ev with EPost u _ _ => [u] | _ => [] end) t.

(** The payloads posted, in order. *)
Definition posted_json (t : list event) : list pyval :=
  flat_map (fun ev => match ev with EPost _ _ j => [j] | _ => [] end) t.

(** The sleeps, in order. *)
Definition sleeps (t : list event) : list spec_float :=
  flat_map (fun ev => match ev with ESleep s => [s] | _ => [] end) t.

(** ** The vocabulary of the properties *)

(** The invariant of a usage sample: byte counts are unsigned 64-bit
    numbers, [used + free <= total] and [total > 0]. *)
Definition valid_sample (u : Usage) : bool :=
  (0 <=? used u) && (0 <=? free u) && (0 <? total u) && (total u <? 2 ^ 64)
  && (used u + free u <=? total u).

(** The exact value of [part * 100 / whole], as a rational. *)
Definition exact_percentage (part whole : Z) : Q :=
  inject_Z (part * 100) / inject_Z whole.

(** The float [f] is within one unit roundoff ([2^-53], relative) of the
    rational [q]. *)
Definition within_roundoff (f : spec_float) (q : Q) : Prop :=
  (Qabs (PyFloat.SF2Q f - q) <= q * (1 # 2 ^ 53))%Q.

(** [used * 100] in unsigned 64-bit arithmetic, for comparison. *)
Definition wrapping_mul_100 (x : Z) : Z := (x * 100) mod 2 ^ 64.

(** A genuine binary64 value. *)
Definition is_binary64 (f : spec_float) : bool :=
  valid_binary PyFloat.prec PyFloat.emax f.

Definition is_response_json_log (ev : event) : bool :=
  match ev with
  | ELog DEBUG fmt _ => (fmt =? "Response JSON: %r")%string
  | _ => false
  end.

(** The URL as the specification words it: the base, [/states/], the
    entity identifier.  To be compared with [url], which is what the
    program computes. *)
Definition url_as_specified (base hostname mount : string) : string :=
  base ++ "/states/sensor." ++ hostname ++ "_" ++ mount ++ "_disk_usage".

(** ** Example runs *)

Module Examples.

(** An environment that holds the key and nothing else. *)
Definition getenv (name : string) : option string :=
  if (name =? "HA_API_KEY")%string then Some "secret" else None.

(** No variable is set. *)
Definition getenv_unset (name : string) : option string := None.

(** The key is set to the empty string. *)
Definition getenv_empty (name : string) : option string :=
  if (name =? "HA_API_KEY")%string then Some EmptyString else None.

(** [60.0], the default interval. *)
Definition sixty : spec_float := PyFloat.of_Z 60.

(** [-1.0] *)
Definition minus_one : spec_float := PyFloat.of_Z (- 1).

Definition sample : Usage := mkUsage 1000 400 600.

(** A sample whose [used * 100] does not fit 64 bits. *)
Definition big_sample : Usage := mkUsage (2 ^ 64 - 1) (2 ^ 63) 0.

Definition state_body : pyval :=
  PDict [("entity_id", PStr "sensor.nas1_data_disk_usage"); ("state", PStr "40.0")].

(** The disk answers, the server answers with a JSON object, the sleep
    returns. *)
Definition world_ok : World :=
  mkWorld (fun _ => Ok sample)
          (fun _ _ _ => Ok (mkResponse 200 (Ok state_body)))
          (fun _ => Ok tt).

Definition refused : exn := mkExn ConnectionError "Connection refused".

(** The server cannot be reached. *)
Definition world_refused : World :=
  mkWorld (fun _ => Ok sample) (fun _ _ _ => Raise refused) (fun _ => Ok tt).

Definition interrupted : exn := mkExn KeyboardInterrupt EmptyString.

(** The user interrupts the program while it waits for the server. *)
Definition world_interrupted : World :=
  mkWorld (fun _ => Ok sample) (fun _ _ _ => Raise interrupted)
          (fun _ => Ok tt).

Definition not_json : exn :=
  mkExn JSONDecodeError "Expecting value: line 1 column 1 (char 0)".

(** The server answers with a body that is no JSON. *)
Definition world_not_json : World :=
  mkWorld (fun _ => Ok sample)
          (fun _ _ _ => Ok (mkResponse 200 (Raise not_json)))
          (fun _ => Ok tt).

(** The server answers with the empty JSON object. *)
Definition world_empty_json : World :=
  mkWorld (fun _ => Ok sample)
          (fun _ _ _ => Ok (mkResponse 200 (Ok (PDict []))))
          (fun _ => Ok tt).

Definition no_such_path : exn :=
  mkExn FileNotFoundError "[Errno 2] No such file or directory: '/data'".

(** The monitored path has gone. *)
Definition world_no_disk : World :=
  mkWorld (fun _ => Raise no_such_path)
          (fun _ _ _ => Ok (mkResponse 200 (Ok state_body)))
          (fun _ => Ok tt).

End Examples.

(** The messages of the three assertions. *)
Definition key_message : string := "Need to specify HA_API_KEY in environment!".

Definition url_message : string := "Please specify HA_REST_API_URL".

Definition interval_message : string := "Stubbornly refusing to run tight loop".

(** The log lines of the loop, by name. *)
Definition posting_log (url : string) (payload : pyval) : event :=
  ELog DEBUG "Posting to %r: json %r" [OVal (PStr url); OVal payload].

Definition got_response_log (response : Response) : event :=
  ELog DEBUG "Got response %r" [OResponse response].

Definition response_json_log (body : pyval) : event :=
  ELog DEBUG "Response JSON: %r" [OVal body].

Definition exception_log (e : exn) : event :=
  ELog ERROR "Got exception: %r, %s" [OExn e; OExn e].

Definition sleeping_log (interval : spec_float) : event :=
  ELog DEBUG "Sleeping %fs" [OVal (PFloat interval)].

(** Runs the monad's plumbing and nothing else. *)
Ltac run_monad :=
  cbn [bind call lift ret raise logging_debug logging_error
       try_except_Exception report_failed app fst snd].

(** ** More observations on traces *)

(** The headers posted, in order. *)
Definition posted_headers (t : list event) : list (list (string * string)) :=
  flat_map (fun ev => match ev with EPost _ h _ => [h] | _ => [] end) t.

(** Where an iteration stands: nothing done yet, the disk sampled, the
    sample posted. *)
Inductive phase : Type := Idle | Sampled | Posted.

(** The order of the calls of one iteration: a disk query when idle, a
    POST of what was sampled, a sleep after the POST; log lines anywhere. *)
Definition phase_step (p : phase) (ev : event) : option phase :=
  match ev, p with
  | ELog _ _ _, _ => Some p
  | EDiskUsage _, Idle => Some Sampled
  | EPost _ _ _, Sampled => Some Posted
  | ESleep _, Posted => Some Idle
  | _, _ => None
  end.

(** The phase a trace leads to, [None] when it breaks the order. *)
Fixpoint phase_run (p : phase) (t : list event) : option phase :=
  match t with
  | [] => Some p
  | ev :: t' =>
      match phase_step p ev with
      | Some p' => phase_run p' t'
      | None => None
      end
  end.

(** ** The script block: arguments, logging set-up, the call of [main] *)

Module logging.

(** [logging.INFO] *)
Definition INFO : Z := 20.

(** The numeric value of the level of a logging call. *)
Definition levelno (l : level) : Z :=
  match l with
  | DEBUG => 10
  | ERROR => 40
  end.

(** [logging._nameToLevel] *)
Definition nameToLevel (s : string) : option Z :=
  if (s =? "CRITICAL")%string then Some 50
  else if (s =? "FATAL")%string then Some 50
  else if (s =? "ERROR")%string then Some 40
  else if (s =? "WARN")%string then Some 30
  else if (s =? "WARNING")%string then Some 30
  else if (s =? "INFO")%string then Some 20
  else if (s =? "DEBUG")%string then Some 10
  else if (s =? "NOTSET")%string then Some 0
  else None.

(** [logging.getLevelName(s)] for a string [s], which is what argparse
    hands to it: the number of a known name, otherwise the string
    ["Level " + s]. *)
Definition getLevelName (s : string) : Z + string :=
  match nameToLevel s with
  | Some n => inl n
  | None => inr ("Level " ++ s)
  end.

(** [logging.basicConfig(level=v)]: the level the root logger gets.  A
    number is taken as it is, a string must be a known name.  (The
    message writes the [repr] of the string as it is for a string without
    quotes, backslashes and control characters.) *)
Definition basicConfig (v : Z + string) : result Z :=
  match v with
  | inl n => Ok n
  | inr s =>
      match nameToLevel s with
      | Some n => Ok n
      | None =>
          Raise (mkExn (OtherException "ValueError")
                   ("Unknown level: '" ++ s ++ "'"))
      end
  end.

(** The log records that pass a root logger of level [root_level]. *)
Definition emitted (root_level : Z) (t : list event) : list event :=
  filter (fun ev =>
            match ev with
            | ELog l _ _ => root_level <=? levelno l
            | _ => false
            end) t.

End logging.

(** A command line that argparse accepts, as it has split it: the two
    positionals and,
    for each option, its value when the option is there.  The value of
    [--interval] is the float that [type=float] made of it. *)
Record CommandLine : Type := mkCommandLine {
  cl_path : string;
  cl_mount : string;
  cl_hostname : option string;
  cl_interval : option spec_float;
  cl_ha_rest_api_url : option string;
  cl_log_level : option string
}.

(** [args], the namespace [parser.parse_args()] returns. *)
Record Namespace : Type := mkNamespace {
  args_path : string;
  args_mount : string;
  args_hostname : string;
  args_interval : spec_float;
  args_ha_rest_api_url : option string;
  args_log_level : Z + string
}.

(** [60.0], the default of [--interval]. *)
Definition default_interval : spec_float := PyFloat.of_Z 60.

(** [parser.parse_args()]: an option that is absent takes its default,
    the host name of the machine, 60.0, the value of [HA_REST_API_URL] in
    the environment, [logging.INFO]; the value of [--log-level] goes
    through [logging.getLevelName]. *)
Definition parse_args (getenv : string -> option string)
    (gethostname : string) (cl : CommandLine) : Namespace :=
  {| args_path := cl_path cl;
     args_mount := cl_mount cl;
     args_hostname :=
       match cl_hostname cl with Some h => h | None => gethostname end;
     args_interval :=
       match cl_interval cl with Some i => i | None => default_interval end;
     args_ha_rest_api_url :=
       match cl_ha_rest_api_url cl with
       | Some u => Some u
       | None => getenv "HA_REST_API_URL"
       end;
     args_log_level :=
       match cl_log_level cl with
       | Some s => logging.getLevelName s
       | None => inl logging.INFO
       end |}.

(** The block under [if __name__ == "__main__"], once [load_dotenv] has
    filled the environment [getenv]: parse, configure logging, call
    [main]. *)
Definition script (getenv : string -> option string) (gethostname : string)
    (cl : CommandLine) (ws : list World) : list event * outcome :=
  let args := parse_args getenv gethostname cl in
  match logging.basicConfig (args_log_level args) with
  | Raise e => ([], Raised e)
  | Ok _ =>
      main getenv (args_hostname args) (args_path args) (args_mount args)
           (args_ha_rest_api_url args) (args_interval args) ws
  end.

(** The level of the root logger while [main] runs. *)
Definition root_level (cl : CommandLine) : result Z :=
  logging.basicConfig
    (match cl_log_level cl with
     | Some s => logging.getLevelName s
     | None => inl logging.INFO
     end).

(** ** More example runs *)

Module MoreExamples.

(** A file system that reports no blocks at all. *)
Definition world_zero_total : World :=
  mkWorld (fun _ => Ok (mkUsage 0 0 0))
          (fun _ _ _ => Ok (mkResponse 200 (Ok Examples.state_body)))
          (fun _ => Ok tt).

Definition sleep_interrupted : exn := mkExn KeyboardInterrupt EmptyString.

(** The user interrupts the program while it sleeps. *)
Definition world_sleep_interrupted : World :=
  mkWorld (fun _ => Ok Examples.sample)
          (fun _ _ _ => Ok (mkResponse 200 (Ok Examples.state_body)))
          (fun _ => Raise sleep_interrupted).

(** An environment with the key and the URL. *)
Definition getenv_both (name : string) : option string :=
  if (name =? "HA_API_KEY")%string then Some "secret"
  else if (name =? "HA_REST_API_URL")%string then Some "http://ha:8123/api"
  else None.

(** [disk_usage.py /data data] *)
Definition plain : CommandLine :=
  mkCommandLine "/data" "data" None None None None.

(** [disk_usage.py /data data --log-level debug] *)
Definition lowercase_level : CommandLine :=
  mkCommandLine "/data" "data" None None None (Some "debug").

(** [disk_usage.py /data data --log-level DEBUG] *)
Definition debug_level : CommandLine :=
  mkCommandLine "/data" "data" None None None (Some "DEBUG").

(** [disk_usage.py /data data --ha-rest-api-url ''] *)
Definition empty_url_flag : CommandLine :=
  mkCommandLine "/data" "data" None None (Some EmptyString) None.

(** [disk_usage.py /data data --hostname nas1 --ha-rest-api-url http://other/api] *)
Definition with_flags : CommandLine :=
  mkCommandLine "/data" "data" (Some "nas1") None (Some "http://other/api")
                None.

End MoreExamples.

(** * Properties *)

(** ** Rounding and integer true division *)

Module PyFloatFacts.
Import PyFloat.

Lemma round_half_even_cases (n d : Z) :
  0 < d ->
  exists q r, n = q * d + r /\ 0 <= r < d /\
    ((2 * r < d /\ round_half_even n d = q) \/
     (d <= 2 * r /\ round_half_even n d = q + 1) \/
     (2 * r = d /\ round_half_even n d = q)).
Proof.
  intros Hd. exists (n / d), (n mod d).
  pose proof (Z.div_mod n d ltac:(lia)) as E.
  pose proof (Z.mod_pos_bound n d Hd) as B.
  split; [lia|]. split; [lia|].
  unfold round_half_even.
  destruct (Z.compare_spec (2 * (n mod d)) d) as [H|H|H].
  - destruct (Z.even (n / d)); [right; right|right; left]; split; auto; lia.
  - left; split; auto.
  - right; left; split; auto; lia.
Qed.

(** No integer is nearer to [n / d] than [round_half_even n d]. *)
Lemma round_half_even_nearest (n d z : Z) :
  0 < d ->
  Z.abs (round_half_even n d * d - n) <= Z.abs (z * d - n).
Proof.
  intros Hd. destruct (round_half_even_cases n d Hd) as (q & r & E & B & C).
  destruct (Z_le_gt_dec z q) as [Hz|Hz].
  - assert (P : 0 <= (q - z) * d) by nia.
    destruct C as [[H ->]|[[H ->]|[H ->]]]; lia.
  - assert (P : 0 <= (z - q - 1) * d) by nia.
    destruct C as [[H ->]|[[H ->]|[H ->]]]; lia.
Qed.

Lemma round_half_even_err (n d : Z) :
  0 < d -> - d <= 2 * (round_half_even n d * d - n) <= d.
Proof.
  intros Hd. destruct (round_half_even_cases n d Hd) as (q & r & E & B & C).
  destruct C as [[H ->]|[[H ->]|[H ->]]]; nia.
Qed.

Lemma round_half_even_le (n d K : Z) :
  0 < d -> n <= K * d -> round_half_even n d <= K.
Proof.
  intros Hd Hn. destruct (round_half_even_cases n d Hd) as (q & r & E & B & C).
  destruct C as [[H ->]|[[H ->]|[H ->]]]; nia.
Qed.

Lemma round_half_even_ge (n d K : Z) :
  0 < d -> K * d <= n -> K <= round_half_even n d.
Proof.
  intros Hd Hn. destruct (round_half_even_cases n d Hd) as (q & r & E & B & C).
  destruct C as [[H ->]|[[H ->]|[H ->]]]; nia.
Qed.

Lemma pow2_pos (x : Z) : 0 <= x -> 0 < 2 ^ x.
Proof. intros; apply Z.pow_pos_nonneg; lia. Qed.

Lemma pow2_add (x y : Z) : 0 <= x -> 0 <= y -> 2 ^ (x + y) = 2 ^ x * 2 ^ y.
Proof. intros; apply Z.pow_add_r; lia. Qed.

Lemma mul_le_cancel (x y p : Z) : 0 < p -> (x * p <= y * p <-> x <= y).
Proof. intros; split; intros; nia. Qed.

Lemma scaled_le_spec (b k a s : Z) :
  0 <= s -> 0 <= s + k ->
  (scaled_le b k a = true <-> b * 2 ^ (s + k) <= a * 2 ^ s).
Proof.
  intros Hs Hsk. unfold scaled_le.
  destruct (Z.leb_spec 0 k) as [Hk|Hk].
  - rewrite Z.leb_le, (pow2_add s k) by lia.
    pose proof (pow2_pos s Hs).
    rewrite <- (mul_le_cancel (b * 2 ^ k) a (2 ^ s)) by lia.
    split; intros; nia.
  - rewrite Z.leb_le.
    replace (2 ^ s) with (2 ^ (s + k) * 2 ^ (- k))
      by (rewrite <- pow2_add by lia; f_equal; lia).
    pose proof (pow2_pos (s + k) Hsk).
    rewrite <- (mul_le_cancel b (a * 2 ^ (- k)) (2 ^ (s + k))) by lia.
    split; intros; nia.
Qed.

Lemma quot_log2_spec (a b s : Z) :
  0 < a -> 0 < b -> 0 <= s -> 0 <= s + quot_log2 a b ->
  b * 2 ^ (s + quot_log2 a b) <= a * 2 ^ s < b * 2 ^ (s + quot_log2 a b + 1).
Proof.
  intros Ha Hb Hs. unfold quot_log2.
  pose proof (Z.log2_spec a Ha) as [La Ua].
  pose proof (Z.log2_spec b Hb) as [Lb Ub].
  pose proof (Z.log2_nonneg a) as Na.
  pose proof (Z.log2_nonneg b) as Nb.
  set (la := Z.log2 a) in *. set (lb := Z.log2 b) in *.
  pose proof (pow2_pos s Hs) as Ps.
  destruct (scaled_le b (la - lb) a) eqn:E; intros Hr.
  - rewrite (scaled_le_spec b (la - lb) a s) in E by lia.
    split; [exact E|].
    (* a * 2^s < 2^(la+1) * 2^s = 2^lb * 2^(s+k+1) <= b * 2^(s+k+1) *)
    assert (P : 2 ^ Z.succ la * 2 ^ s = 2 ^ lb * 2 ^ (s + (la - lb) + 1)).
    { rewrite <- !pow2_add by lia. f_equal; lia. }
    pose proof (pow2_pos (s + (la - lb) + 1) ltac:(lia)).
    nia.
  - assert (E' : ~ b * 2 ^ (s + (la - lb)) <= a * 2 ^ s).
    { rewrite <- (scaled_le_spec b (la - lb) a s) by lia. congruence. }
    replace (s + (la - lb - 1) + 1) with (s + (la - lb)) by lia.
    split; [|lia].
    assert (P : 2 ^ Z.succ lb * 2 ^ (s + (la - lb - 1)) = 2 ^ la * 2 ^ s).
    { rewrite <- !pow2_add by lia. f_equal; lia. }
    pose proof (pow2_pos (s + (la - lb - 1)) ltac:(lia)).
    nia.
Qed.

Lemma pow2_le_mono (x y : Z) : 0 <= x <= y -> 2 ^ x <= 2 ^ y.
Proof. intros; apply Z.pow_le_mono_r; lia. Qed.

Lemma quot_log2_le_6 (a b : Z) :
  0 < a -> 0 < b -> a <= 100 * b -> quot_log2 a b <= 6.
Proof.
  intros Ha Hb Hab.
  destruct (Z_le_gt_dec (quot_log2 a b) 6) as [|Hr]; [assumption|exfalso].
  pose proof (quot_log2_spec a b 0 Ha Hb ltac:(lia) ltac:(lia)) as [L _].
  pose proof (pow2_le_mono 7 (0 + quot_log2 a b) ltac:(lia)) as P.
  change (2 ^ 7) with 128 in P. change (2 ^ 0) with 1 in L. nia.
Qed.

Lemma quot_log2_ge_m64 (a b : Z) :
  0 < a -> 0 < b < 2 ^ 64 -> - 64 <= quot_log2 a b.
Proof.
  intros Ha Hb.
  destruct (Z_le_gt_dec (- 64) (quot_log2 a b)) as [|Hr]; [assumption|exfalso].
  pose proof (quot_log2_spec a b (- quot_log2 a b) Ha ltac:(lia) ltac:(lia)
                ltac:(lia)) as [_ U].
  replace (- quot_log2 a b + quot_log2 a b + 1) with 1 in U by lia.
  pose proof (pow2_le_mono 65 (- quot_log2 a b) ltac:(lia)) as P.
  change (2 ^ 1) with 2 in U.
  assert (2 ^ 65 = 2 * 2 ^ 64) by reflexivity.
  nia.
Qed.

(** The shape of the quotient of a percentage: [0 < a <= 100 * b]. *)
Lemma divide_pos_percent (a b : Z) :
  0 < a -> 0 < b < 2 ^ 64 -> a <= 100 * b ->
  exists m e,
    divide_pos a b = (m, e) /\
    - 1074 <= e < 0 /\
    2 ^ 52 <= m < 2 ^ 53 /\
    m <= 100 * 2 ^ (- e) /\
    Z.abs (m * b - a * 2 ^ (- e)) * 2 ^ 53 <= a * 2 ^ (- e).
Proof.
  intros Ha Hb Hab.
  pose proof (quot_log2_le_6 a b Ha ltac:(lia) Hab) as R6.
  pose proof (quot_log2_ge_m64 a b Ha Hb) as R64.
  unfold divide_pos.
  set (r := quot_log2 a b) in *.
  assert (E : fexp prec emax (r + 1) = r - 52).
  { unfold fexp, emin, prec, emax. lia. }
  rewrite E. unfold quot_round.
  destruct (Z.leb_spec 0 (r - 52)) as [|_]; [lia|].
  set (k := - (r - 52)).
  assert (Hk : 46 <= k <= 116) by (unfold k; lia).
  pose proof (quot_log2_spec a b k Ha ltac:(lia) ltac:(lia)
                ltac:(fold r; unfold k; lia)) as [L U].
  fold r in L, U.
  replace (k + r) with 52 in L by (unfold k; lia).
  replace (k + r + 1) with 53 in U by (unfold k; lia).
  pose proof (pow2_pos k ltac:(lia)) as Pk.
  set (n := a * 2 ^ k) in *.
  pose proof (round_half_even_err n b ltac:(lia)) as Err.
  pose proof (round_half_even_ge n b (2 ^ 52) ltac:(lia) ltac:(lia)) as Lo.
  pose proof (round_half_even_le n b (2 ^ 53) ltac:(lia) ltac:(lia)) as Hi.
  pose proof (round_half_even_le n b (100 * 2 ^ k) ltac:(lia)
                ltac:(unfold n; nia)) as Hc.
  set (m := round_half_even n b) in *.
  assert (P52 : 2 ^ 53 = 2 * 2 ^ 52) by reflexivity.
  assert (Q52 : 0 < 2 ^ 52) by reflexivity.
  unfold prec.
  destruct (Z.eqb_spec m (2 ^ 53)) as [Em|Em].
  - exists (2 ^ (53 - 1)), (r - 52 + 1).
    replace (- (r - 52 + 1)) with (k - 1) by (unfold k; lia).
    assert (Pk1 : 2 ^ k = 2 * 2 ^ (k - 1)).
    { replace k with (1 + (k - 1)) at 1 by lia.
      rewrite pow2_add by lia. reflexivity. }
    change (53 - 1) with 52.
    pose proof (pow2_pos (k - 1) ltac:(lia)) as Pk'.
    repeat split; try lia; unfold n in *; nia.
  - exists m, (r - 52). fold k.
    repeat split; try lia; unfold n in *; nia.
Qed.

Lemma SF2Q_neg_exp (m e : Z) :
  0 < m -> e < 0 ->
  SF2Q (S754_finite false (Z.to_pos m) e) = m # Z.to_pos (2 ^ (- e)).
Proof.
  intros Hm He. destruct e as [|p|p]; try lia. destruct m as [|q|q]; try lia.
  simpl SF2Q. rewrite Pos2Z.opp_neg.
  rewrite <- Pos2Z.inj_pow. reflexivity.
Qed.

Lemma Qdiv_inject (a b : Z) :
  0 < b -> (inject_Z a / inject_Z b == a # Z.to_pos b)%Q.
Proof.
  intros Hb. rewrite Qmake_Qdiv. rewrite Z2Pos.id by lia. reflexivity.
Qed.

Lemma Q_upper (m P c : Z) : 0 < P -> m <= c * P -> (m # Z.to_pos P <= inject_Z c)%Q.
Proof.
  intros HP H. unfold Qle; simpl. rewrite Z2Pos.id by lia. lia.
Qed.

Lemma Q_rel_err (m P a b : Z) :
  0 < P -> 0 < b ->
  Z.abs (m * b - a * P) * 2 ^ 53 <= a * P ->
  (Qabs ((m # Z.to_pos P) - inject_Z a / inject_Z b)
     <= (inject_Z a / inject_Z b) * (1 # 2 ^ 53))%Q.
Proof.
  intros HP Hb H. rewrite (Qdiv_inject a b Hb).
  unfold Qle, Qabs, Qminus, Qplus, Qopp, Qmult; simpl.
  rewrite !Pos2Z.inj_mul, !Z2Pos.id by lia.
  change (Z.pos (2 ^ 53)) with (2 ^ 53).
  replace (m * b + - a * P) with (m * b - a * P) by lia.
  nia.
Qed.

Lemma digits2_pos_log2 (p : positive) :
  Z.pos (digits2_pos p) = Z.log2 (Z.pos p) + 1.
Proof.
  assert (S : forall q, digits2_pos q = Pos.size q).
  { induction q; simpl; congruence. }
  destruct p; simpl; rewrite ?S; lia.
Qed.

Lemma valid_binary_normal (s : bool) (m e : Z) :
  2 ^ 52 <= m < 2 ^ 53 -> - 1074 <= e <= 971 ->
  valid_binary prec emax (S754_finite s (Z.to_pos m) e) = true.
Proof.
  intros Hm He. assert (0 < m) by (change (2 ^ 52) with 4503599627370496 in Hm; lia).
  unfold valid_binary, bounded, canonical_mantissa.
  rewrite digits2_pos_log2, Z2Pos.id by lia.
  rewrite (Z.log2_unique m 52) by (change (Z.succ 52) with 53; lia).
  unfold fexp, emin, prec, emax.
  apply andb_true_intro; split; [apply Z.eqb_eq | apply Z.leb_le]; lia.
Qed.

Lemma int_truediv_percent (a b : Z) :
  0 <= a -> 0 < b < 2 ^ 64 -> a <= 100 * b ->
  exists f,
    int_truediv a b = Ok f /\
    valid_binary prec emax f = true /\
    (0 <= SF2Q f <= 100)%Q /\
    (Qabs (SF2Q f - inject_Z a / inject_Z b)
       <= (inject_Z a / inject_Z b) * (1 # 2 ^ 53))%Q.
Proof.
  intros Ha Hb Hab. unfold int_truediv.
  destruct (Z.eqb_spec b 0) as [|_]; [lia|].
  destruct (Z.ltb_spec a 0) as [|_]; [lia|].
  destruct (Z.ltb_spec b 0) as [|_]; [lia|].
  simpl xorb.
  destruct (Z.eqb_spec a 0) as [->|Na].
  - exists (S754_zero false). repeat split; try (simpl; lra).
    rewrite Qdiv_inject by lia. vm_compute. discriminate.
  - rewrite (Z.abs_eq a), (Z.abs_eq b) by lia.
    destruct (divide_pos_percent a b ltac:(lia) Hb Hab)
      as (m & e & -> & He & Hm & Hc & Herr).
    assert (0 < m) by (change (2 ^ 52) with 4503599627370496 in Hm; lia).
    destruct (Z.ltb_spec (emax - prec) e) as [Hov|_];
      [unfold emax, prec in Hov; lia|].
    pose proof (pow2_pos (- e) ltac:(lia)) as Pe.
    exists (S754_finite false (Z.to_pos m) e).
    split; [destruct m; try lia; reflexivity|].
    split; [apply valid_binary_normal; lia|].
    rewrite SF2Q_neg_exp by lia.
    split; [split|].
    + unfold Qle; simpl. lia.
    + apply (Q_upper m (2 ^ (- e)) 100); lia.
    + apply Q_rel_err; lia.
Qed.

End PyFloatFacts.

(** ** Strings and [os.path.join] *)

Lemma string_app_assoc (s t u : string) : ((s ++ t) ++ u = s ++ t ++ u)%string.
Proof. induction s as [|c s IH]; simpl; [reflexivity | now rewrite IH]. Qed.

Lemma string_app_nonempty (s t : string) :
  t <> EmptyString -> (s ++ t)%string <> EmptyString.
Proof. destruct s; simpl; [auto | discriminate]. Qed.

Lemma endswith_sep_app (s t : string) :
  t <> EmptyString ->
  posixpath.endswith_sep (s ++ t) = posixpath.endswith_sep t.
Proof.
  intros Ht. induction s as [|c s IH]; [reflexivity|].
  simpl. rewrite IH.
  destruct (s ++ t)%string eqn:E; [|reflexivity].
  exfalso. exact (string_app_nonempty s t Ht E).
Qed.

(** What [os.path.join(base, "states", entity_id)] is, for a base that is
    not empty. *)
Lemma url_eq (hostname mount base : string) :
  base <> EmptyString ->
  url hostname mount base =
  (base ++ (if posixpath.endswith_sep base then EmptyString else "/")
        ++ "states/" ++ entity_id hostname mount)%string.
Proof.
  intros Hb. unfold url, posixpath.join. cbn [fold_left].
  unfold posixpath.join_step at 2.
  change (posixpath.startswith_sep "states") with false. cbv iota.
  destruct (String.eqb_spec base EmptyString) as [|_]; [contradiction|].
  cbn [orb].
  assert (S : forall p, posixpath.join_step (p ++ "states") (entity_id hostname mount)
                  = (p ++ "states/" ++ entity_id hostname mount)%string).
  { intros p. unfold posixpath.join_step.
    change (posixpath.startswith_sep (entity_id hostname mount)) with false.
    cbv iota.
    destruct (String.eqb_spec (p ++ "states") EmptyString) as [E|_].
    - exfalso. revert E. apply string_app_nonempty. discriminate.
    - cbn [orb]. rewrite endswith_sep_app by discriminate.
      change (posixpath.endswith_sep "states") with false. cbv iota.
      rewrite string_app_assoc. reflexivity. }
  destruct (posixpath.endswith_sep base).
  - rewrite S. reflexivity.
  - change (base ++ posixpath.sep ++ "states")%string
      with (base ++ "/states")%string.
    replace (base ++ "/states")%string with ((base ++ "/") ++ "states")%string
      by (rewrite string_app_assoc; reflexivity).
    rewrite S. rewrite string_app_assoc. reflexivity.
Qed.

Lemma url_eq_specified (hostname mount base : string) :
  base <> EmptyString -> posixpath.endswith_sep base = false ->
  url hostname mount base = url_as_specified base hostname mount.
Proof.
  intros Hb He. rewrite url_eq by assumption. rewrite He. reflexivity.
Qed.

(** ** The loop body *)

Section ReporterFacts.

Variables (key hostname path mount base : string).
Variable interval : spec_float.

Local Abbreviation the_url := (url hostname mount base).
Local Abbreviation the_headers := (headers key).
Local Abbreviation body_of := (loop_body key hostname path mount base interval).
Local Abbreviation report_of := (report key hostname mount base).
Local Abbreviation loop_of := (loop key hostname path mount base interval).

(** The [try] block, case by case. *)
Lemma report_cases (w : World) (payload : pyval) :
  report_of w payload =
  match requests_post w the_url the_headers payload with
  | Raise e => ([EPost the_url the_headers payload], Raise e)
  | Ok response =>
      match response_json response with
      | Raise e =>
          ([EPost the_url the_headers payload; got_response_log response],
           Raise e)
      | Ok body =>
          if truthy body
          then ([EPost the_url the_headers payload; got_response_log response;
                 response_json_log body], Ok tt)
          else ([EPost the_url the_headers payload; got_response_log response],
                Ok tt)
      end
  end.
Proof.
  unfold report.
  destruct (requests_post w the_url the_headers payload) as [response|e];
    [|reflexivity].
  run_monad. destruct (response_json response) as [body|e]; [|reflexivity].
  run_monad. destruct (truthy body); reflexivity.
Qed.

(** The [try] block posts once, never sleeps and never logs an error. *)
Lemma report_trace (w : World) (payload : pyval) :
  posted_urls (fst (report_of w payload)) = [the_url] /\
  posted_json (fst (report_of w payload)) = [payload] /\
  sleeps (fst (report_of w payload)) = [] /\
  filter is_error_log (fst (report_of w payload)) = [] /\
  filter is_disk_usage (fst (report_of w payload)) = [].
Proof.
  rewrite report_cases.
  destruct (requests_post w the_url the_headers payload) as [response|e];
    [|repeat split].
  destruct (response_json response) as [body|e]; [|repeat split].
  destruct (truthy body); repeat split.
Qed.

Lemma loop_body_disk_raise (w : World) (e : exn) :
  shutil_disk_usage w path = Raise e ->
  body_of w = ([EDiskUsage path], Raise e).
Proof. intros H. unfold loop_body. rewrite H. reflexivity. Qed.

Lemma loop_body_used_raise (w : World) (usage : Usage) (e : exn) :
  shutil_disk_usage w path = Ok usage ->
  used_percentage usage = Raise e ->
  body_of w = ([EDiskUsage path], Raise e).
Proof.
  intros Hd Hu. unfold loop_body. rewrite Hd. run_monad. rewrite Hu.
  reflexivity.
Qed.

Lemma loop_body_free_raise (w : World) (usage : Usage) (up : spec_float)
    (e : exn) :
  shutil_disk_usage w path = Ok usage ->
  used_percentage usage = Ok up ->
  free_percentage usage = Raise e ->
  body_of w = ([EDiskUsage path], Raise e).
Proof.
  intros Hd Hu Hf. unfold loop_body. rewrite Hd. run_monad. rewrite Hu.
  run_monad. rewrite Hf. reflexivity.
Qed.

(** The loop body once the sample and both percentages are there. *)
Lemma loop_body_reported (w : World) (usage : Usage) (up fp : spec_float) :
  shutil_disk_usage w path = Ok usage ->
  used_percentage usage = Ok up ->
  free_percentage usage = Ok fp ->
  body_of w =
  let payload := json hostname mount usage up fp in
  let pre := [EDiskUsage path; posting_log the_url payload] in
  let post := [sleeping_log interval; ESleep interval] in
  match report_of w payload with
  | (t, Ok _) => ((pre ++ t ++ post)%list, time_sleep w interval)
  | (t, Raise e) =>
      if isinstance_Exception e
      then ((pre ++ t ++ exception_log e :: post)%list, time_sleep w interval)
      else ((pre ++ t)%list, Raise e)
  end.
Proof.
  intros Hd Hu Hf. unfold loop_body. rewrite Hd. run_monad.
  rewrite Hu. run_monad. rewrite Hf. run_monad.
  destruct (report_of w (json hostname mount usage up fp)) as [t [[]|e]];
    run_monad.
  - reflexivity.
  - destruct (isinstance_Exception e); run_monad.
    + rewrite <- app_assoc. reflexivity.
    + reflexivity.
Qed.

Lemma posted_urls_app (t1 t2 : list event) :
  posted_urls (t1 ++ t2) = (posted_urls t1 ++ posted_urls t2)%list.
Proof. apply flat_map_app. Qed.

Lemma posted_json_app (t1 t2 : list event) :
  posted_json (t1 ++ t2) = (posted_json t1 ++ posted_json t2)%list.
Proof. apply flat_map_app. Qed.

Lemma sleeps_app (t1 t2 : list event) :
  sleeps (t1 ++ t2) = (sleeps t1 ++ sleeps t2)%list.
Proof. apply flat_map_app. Qed.

(** An iteration that reaches the report posts once, to [url], the payload
    [json]. *)
Lemma loop_body_posts (w : World) (usage : Usage) (up fp : spec_float) :
  shutil_disk_usage w path = Ok usage ->
  used_percentage usage = Ok up ->
  free_percentage usage = Ok fp ->
  posted_urls (fst (body_of w)) = [the_url] /\
  posted_json (fst (body_of w)) = [json hostname mount usage up fp].
Proof.
  intros Hd Hu Hf. rewrite (loop_body_reported w usage up fp Hd Hu Hf).
  cbv zeta.
  destruct (report_trace w (json hostname mount usage up fp))
    as (Pu & Pj & _).
  destruct (report_of w (json hostname mount usage up fp)) as [t [[]|e]];
    [|destruct (isinstance_Exception e)];
    cbn [fst snd] in *;
    rewrite posted_urls_app, posted_json_app;
    rewrite ?posted_urls_app, ?posted_json_app, Pu, Pj; split; reflexivity.
Qed.

(** Whatever happens, an iteration posts nowhere but to [url]. *)
Lemma loop_body_posts_only_url (w : World) :
  Forall (fun u => u = the_url) (posted_urls (fst (body_of w))).
Proof.
  destruct (shutil_disk_usage w path) as [usage|e] eqn:Hd.
  2:{ rewrite (loop_body_disk_raise w e Hd). constructor. }
  destruct (used_percentage usage) as [up|e] eqn:Hu.
  2:{ rewrite (loop_body_used_raise w usage e Hd Hu). constructor. }
  destruct (free_percentage usage) as [fp|e] eqn:Hf.
  2:{ rewrite (loop_body_free_raise w usage up e Hd Hu Hf). constructor. }
  destruct (loop_body_posts w usage up fp Hd Hu Hf) as [-> _].
  repeat constructor.
Qed.

Lemma loop_posts_only_url (ws : list World) :
  Forall (fun u => u = the_url) (posted_urls (fst (loop_of ws))).
Proof.
  induction ws as [|w ws IH]; cbn [loop]; [constructor|].
  pose proof (loop_body_posts_only_url w) as Hw.
  destruct (body_of w) as [t [[]|e]]; cbn [fst] in *; [|exact Hw].
  destruct (loop_of ws) as [t' o]. cbn [fst] in *.
  rewrite posted_urls_app. apply Forall_app. split; assumption.
Qed.

(** Iterations that all return are followed by the next ones. *)
Lemma loop_app (ws1 ws2 : list World) :
  snd (loop_of ws1) = Running ->
  loop_of (ws1 ++ ws2) =
  ((fst (loop_of ws1) ++ fst (loop_of ws2))%list, snd (loop_of ws2)).
Proof.
  induction ws1 as [|w ws1 IH]; cbn [loop app]; intros H.
  - destruct (loop_of ws2); reflexivity.
  - destruct (body_of w) as [t [[]|e]]; [|discriminate H].
    destruct (loop_of ws1) as [t1 o1]. cbn [fst snd] in *.
    rewrite (IH H). rewrite app_assoc. reflexivity.
Qed.

End ReporterFacts.

(** ** Start-up *)

Lemma le_zero_not_gt_zero (x : spec_float) :
  PyFloat.le_zero x = true -> PyFloat.gt_zero x = false.
Proof.
  unfold PyFloat.le_zero, PyFloat.gt_zero, PyFloat.zero, SFleb, SFltb.
  destruct x as [s|s| |s m e]; try destruct s; simpl; congruence.
Qed.

Lemma assert_str_ok (v : option string) (msg : string) (s : string) :
  v = Some s -> s <> EmptyString -> assert_str v msg = ret s.
Proof.
  intros -> Hs. unfold assert_str, truthy_str.
  destruct (String.eqb_spec s EmptyString); [contradiction | reflexivity].
Qed.

Lemma assert_str_fails (v : option string) (msg : string) :
  truthy_str v = false -> assert_str v msg = raise (mkExn AssertionError msg).
Proof.
  intros H. unfold assert_str. destruct v; [rewrite H|]; reflexivity.
Qed.

Lemma assert_str_passes (v : option string) (msg : string) :
  truthy_str v = true ->
  exists s, v = Some s /\ s <> EmptyString /\ assert_str v msg = ret s.
Proof.
  intros H. destruct v as [s|]; [|discriminate H].
  exists s. unfold assert_str. rewrite H. repeat split.
  intros ->. discriminate H.
Qed.

(** The assertions either raise an [AssertionError] or let a non-empty key
    and a non-empty URL through; they make no call to the outside. *)
Lemma startup_cases (getenv : string -> option string)
    (ha_rest_api_url : option string) (interval : spec_float) :
  (exists msg,
     startup getenv ha_rest_api_url interval
     = ([], Raise (mkExn AssertionError msg))) \/
  (exists key base,
     getenv "HA_API_KEY" = Some key /\ key <> EmptyString /\
     ha_rest_api_url = Some base /\ base <> EmptyString /\
     PyFloat.gt_zero interval = true /\
     startup getenv ha_rest_api_url interval = ([], Ok (key, base))).
Proof.
  unfold startup.
  destruct (truthy_str (getenv "HA_API_KEY")) eqn:Hk.
  2:{ left. eexists. rewrite (assert_str_fails _ _ Hk). reflexivity. }
  destruct (assert_str_passes _ "Need to specify HA_API_KEY in environment!" Hk)
    as (key & Ek & Nk & ->).
  destruct (truthy_str ha_rest_api_url) eqn:Hu.
  2:{ left. eexists. rewrite (assert_str_fails _ _ Hu). reflexivity. }
  destruct (assert_str_passes _ "Please specify HA_REST_API_URL" Hu)
    as (base & Eb & Nb & ->).
  destruct (PyFloat.gt_zero interval) eqn:Hi.
  - right. exists key, base. repeat split; assumption.
  - left. eexists. reflexivity.
Qed.

Lemma main_started (getenv : string -> option string)
    (hostname path mount : string) (ha_rest_api_url : option string)
    (interval : spec_float) (ws : list World) (key base : string) :
  startup getenv ha_rest_api_url interval = ([], Ok (key, base)) ->
  main getenv hostname path mount ha_rest_api_url interval ws
  = loop key hostname path mount base interval ws.
Proof.
  intros H. unfold main. rewrite H.
  destruct (loop key hostname path mount base interval ws). reflexivity.
Qed.

Lemma main_rejected (getenv : string -> option string)
    (hostname path mount : string) (ha_rest_api_url : option string)
    (interval : spec_float) (ws : list World) (e : exn) :
  startup getenv ha_rest_api_url interval = ([], Raise e) ->
  main getenv hostname path mount ha_rest_api_url interval ws = ([], Raised e).
Proof. intros H. unfold main. rewrite H. reflexivity. Qed.

(** * The properties of the reporter *)

(** ** Percentages (C1, C7) *)

Lemma valid_sample_spec (usage : Usage) :
  valid_sample usage = true ->
  0 <= used usage /\ 0 <= free usage /\ 0 < total usage < 2 ^ 64 /\
  used usage + free usage <= total usage.
Proof.
  unfold valid_sample. rewrite !andb_true_iff.
  rewrite !Z.leb_le, !Z.ltb_lt. lia.
Qed.

(** Both percentages of a valid sample are computed, without an exception,
    as genuine floats in [[0, 100]] within a unit roundoff of the exact
    quotients. *)
Lemma percentages_spec (usage : Usage) :
  valid_sample usage = true ->
  exists up fp,
    used_percentage usage = Ok up /\ free_percentage usage = Ok fp /\
    is_binary64 up = true /\ is_binary64 fp = true /\
    (0 <= PyFloat.SF2Q up <= 100)%Q /\ (0 <= PyFloat.SF2Q fp <= 100)%Q /\
    within_roundoff up (exact_percentage (used usage) (total usage)) /\
    within_roundoff fp (exact_percentage (free usage) (total usage)).
Proof.
  intros V. apply valid_sample_spec in V. destruct V as (Hu & Hf & Ht & Hs).
  destruct (PyFloatFacts.int_truediv_percent (used usage * 100) (total usage))
    as (up & Eu & Vu & Bu & Ru); try lia.
  destruct (PyFloatFacts.int_truediv_percent (free usage * 100) (total usage))
    as (fp & Ef & Vf & Bf & Rf); try lia.
  exists up, fp. repeat split; assumption || tauto.
Qed.

(** C1.  For every valid disk-usage sample the loop computes
    [used_percentage] and [free_percentage] without an exception, as the
    binary64 values within one unit roundoff of the exact quotients
    [used * 100 / total] and [free * 100 / total] (the product is an
    unbounded integer, so nothing is lost when it exceeds 64 bits), and
    these are the values the iteration posts.  For total=1000, used=400,
    free=600 they are exactly 40.0 and 60.0. *)
Theorem percentages_computed (usage : Usage) :
  valid_sample usage = true ->
  exists up fp,
    used_percentage usage = Ok up /\ free_percentage usage = Ok fp /\
    is_binary64 up = true /\ is_binary64 fp = true /\
    within_roundoff up (exact_percentage (used usage) (total usage)) /\
    within_roundoff fp (exact_percentage (free usage) (total usage)) /\
    (forall key hostname path mount base interval w,
        shutil_disk_usage w path = Ok usage ->
        posted_json (fst (loop_body key hostname path mount base interval w))
        = [json hostname mount usage up fp]) /\
    (total usage = 1000 -> used usage = 400 -> free usage = 600 ->
     up = PyFloat.of_Z 40 /\ fp = PyFloat.of_Z 60).
Proof.
  intros V.
  destruct (percentages_spec usage V)
    as (up & fp & Eu & Ef & Vu & Vf & _ & _ & Ru & Rf).
  exists up, fp. repeat split; try assumption.
  - intros key hostname path mount base interval w Hd.
    apply (loop_body_posts key hostname path mount base interval w usage up fp);
      assumption.
  - destruct usage as [t u f]; cbn in *. subst.
    vm_compute in Eu. congruence.
  - destruct usage as [t u f]; cbn in *. subst.
    vm_compute in Ef. congruence.
Qed.

Lemma percentages_computed_witness :
  valid_sample Examples.sample = true /\
  exists up fp,
    used_percentage Examples.sample = Ok up /\
    free_percentage Examples.sample = Ok fp /\
    up = PyFloat.of_Z 40 /\ fp = PyFloat.of_Z 60.
Proof.
  split; [reflexivity|].
  destruct (percentages_computed Examples.sample eq_refl)
    as (up & fp & Eu & Ef & _ & _ & _ & _ & _ & E).
  exists up, fp. repeat split; try assumption; apply E; reflexivity.
Defined.

(** The same product in 64-bit arithmetic would wrap around: for a disk
    half full of [2^64 - 1] bytes it gives 0 where the program gives 50.0. *)
Example no_wrap_around :
  used_percentage Examples.big_sample = Ok (PyFloat.of_Z 50) /\
  wrapping_mul_100 (used Examples.big_sample) = 0.
Proof. split; vm_compute; reflexivity. Qed.

(** [int_truediv] agrees with the float division of the standard library
    on operands that are floats themselves, whether the quotient is exact
    or rounded, and on either sign. *)
Example int_truediv_cross_check :
  PyFloat.int_truediv (400 * 100) 1000
  = Ok (PyFloat.div (PyFloat.of_Z (400 * 100)) (PyFloat.of_Z 1000)) /\
  PyFloat.int_truediv 1 3
  = Ok (PyFloat.div (PyFloat.of_Z 1) (PyFloat.of_Z 3)) /\
  PyFloat.int_truediv (- 7) 3
  = Ok (PyFloat.div (PyFloat.of_Z (- 7)) (PyFloat.of_Z 3)) /\
  PyFloat.int_truediv 12345678901 (- 1000)
  = Ok (PyFloat.div (PyFloat.of_Z 12345678901) (PyFloat.of_Z (- 1000))) /\
  (PyFloat.SF2Q (PyFloat.of_Z 40) == 40)%Q.
Proof. repeat apply conj; vm_compute; reflexivity. Qed.

(** The corner cases of [/]: division by zero, a quotient too large for a
    float, a quotient that rounds to the smallest subnormal, to zero, and
    the sign of a zero. *)
Example int_truediv_corner_cases :
  PyFloat.int_truediv 1 0
  = Raise (mkExn ZeroDivisionError "division by zero") /\
  PyFloat.int_truediv (2 ^ 1024) 1
  = Raise (mkExn OverflowError
             "integer division result too large for a float") /\
  PyFloat.int_truediv 1 (2 ^ 1074) = Ok (S754_finite false 1 (- 1074)) /\
  PyFloat.int_truediv 1 (2 ^ 1075) = Ok (S754_zero false) /\
  PyFloat.int_truediv 0 (- 1) = Ok (S754_zero true).
Proof. repeat apply conj; vm_compute; reflexivity. Qed.

Lemma exact_percentage_sum (usage : Usage) :
  0 < total usage ->
  (exact_percentage (used usage) (total usage)
   + exact_percentage (free usage) (total usage)
   == inject_Z (100 * (used usage + free usage)) / inject_Z (total usage))%Q.
Proof.
  intros Ht. unfold exact_percentage.
  rewrite !PyFloatFacts.Qdiv_inject by assumption.
  unfold Qeq, Qplus; cbn [Qnum Qden].
  rewrite !Pos2Z.inj_mul, !Z2Pos.id by lia. ring.
Qed.

(** C7.  For every valid usage sample, both percentages lie in [[0, 100]]
    and their sum is [100 * (used + free) / total] up to a relative error
    of one unit roundoff, [2^-53]. *)
Theorem percentages_bounded (usage : Usage) :
  valid_sample usage = true ->
  exists up fp,
    used_percentage usage = Ok up /\ free_percentage usage = Ok fp /\
    (0 <= PyFloat.SF2Q up <= 100)%Q /\ (0 <= PyFloat.SF2Q fp <= 100)%Q /\
    (Qabs (PyFloat.SF2Q up + PyFloat.SF2Q fp
           - inject_Z (100 * (used usage + free usage)) / inject_Z (total usage))
     <= inject_Z (100 * (used usage + free usage)) / inject_Z (total usage)
        * (1 # 2 ^ 53))%Q.
Proof.
  intros V.
  destruct (percentages_spec usage V)
    as (up & fp & Eu & Ef & _ & _ & Bu & Bf & Ru & Rf).
  exists up, fp. repeat split; try tauto.
  apply valid_sample_spec in V. destruct V as (_ & _ & Ht & _).
  rewrite <- (exact_percentage_sum usage) by lia.
  unfold within_roundoff in Ru, Rf.
  set (x := exact_percentage (used usage) (total usage)) in *.
  set (y := exact_percentage (free usage) (total usage)) in *.
  assert (E : (PyFloat.SF2Q up + PyFloat.SF2Q fp - (x + y)
               == (PyFloat.SF2Q up - x) + (PyFloat.SF2Q fp - y))%Q) by ring.
  rewrite E.
  pose proof (Qabs_triangle (PyFloat.SF2Q up - x) (PyFloat.SF2Q fp - y)) as T.
  lra.
Qed.

Lemma percentages_bounded_witness :
  valid_sample Examples.sample = true /\
  exists up fp,
    used_percentage Examples.sample = Ok up /\
    free_percentage Examples.sample = Ok fp /\
    (0 <= PyFloat.SF2Q up <= 100)%Q /\ (0 <= PyFloat.SF2Q fp <= 100)%Q.
Proof.
  split; [reflexivity|].
  destruct (percentages_bounded Examples.sample eq_refl)
    as (up & fp & Eu & Ef & Bu & Bf & _).
  exists up, fp. repeat split; tauto.
Defined.

(** ** Failures of the report and of the disk query (C2, C3, C9) *)

Section Failures.

Variables (key hostname path mount base : string).
Variable interval : spec_float.

Local Abbreviation the_url := (url hostname mount base).
Local Abbreviation the_headers := (headers key).
Local Abbreviation body_of := (loop_body key hostname path mount base interval).
Local Abbreviation report_of := (report key hostname mount base).
Local Abbreviation loop_of := (loop key hostname path mount base interval).

(** An iteration whose report returns: the report's events between the
    two leading and the two closing ones, and the result of the sleep. *)
Lemma loop_body_report_ok (w : World) (usage : Usage) (up fp : spec_float)
    (t : list event) :
  shutil_disk_usage w path = Ok usage ->
  used_percentage usage = Ok up ->
  free_percentage usage = Ok fp ->
  report_of w (json hostname mount usage up fp) = (t, Ok tt) ->
  body_of w =
  (([EDiskUsage path; posting_log the_url (json hostname mount usage up fp)]
     ++ t ++ [sleeping_log interval; ESleep interval])%list,
   time_sleep w interval).
Proof.
  intros Hd Hu Hf Hr. rewrite (loop_body_reported _ _ _ _ _ _ w usage up fp Hd Hu Hf).
  cbv zeta. rewrite Hr. reflexivity.
Qed.

(** An iteration whose report raises an instance of [Exception]. *)
Lemma loop_body_report_caught (w : World) (usage : Usage) (up fp : spec_float)
    (t : list event) (e : exn) :
  shutil_disk_usage w path = Ok usage ->
  used_percentage usage = Ok up ->
  free_percentage usage = Ok fp ->
  report_of w (json hostname mount usage up fp) = (t, Raise e) ->
  isinstance_Exception e = true ->
  body_of w =
  (([EDiskUsage path; posting_log the_url (json hostname mount usage up fp)]
     ++ t ++ [exception_log e; sleeping_log interval; ESleep interval])%list,
   time_sleep w interval).
Proof.
  intros Hd Hu Hf Hr He. rewrite (loop_body_reported _ _ _ _ _ _ w usage up fp Hd Hu Hf).
  cbv zeta. rewrite Hr, He. reflexivity.
Qed.

(** An iteration whose report raises something that is no [Exception]. *)
Lemma loop_body_report_uncaught (w : World) (usage : Usage)
    (up fp : spec_float) (t : list event) (e : exn) :
  shutil_disk_usage w path = Ok usage ->
  used_percentage usage = Ok up ->
  free_percentage usage = Ok fp ->
  report_of w (json hostname mount usage up fp) = (t, Raise e) ->
  isinstance_Exception e = false ->
  body_of w =
  (([EDiskUsage path; posting_log the_url (json hostname mount usage up fp)]
     ++ t)%list,
   Raise e).
Proof.
  intros Hd Hu Hf Hr He. rewrite (loop_body_reported _ _ _ _ _ _ w usage up fp Hd Hu Hf).
  cbv zeta. rewrite Hr, He. reflexivity.
Qed.

(** C2, as amended.  When the HTTP report step raises an exception that is
    an instance of [Exception] (raised by the POST or by decoding the
    response), the loop body logs it at error level with the exception
    passed twice (for [%r] and [%s]), does not raise it, has posted once,
    and then logs and performs the sleep of the configured interval: the
    body's result is the result of that sleep, the same as in an iteration
    whose report succeeded, and when the sleep returns the loop goes on to
    the next iteration. *)
Theorem report_exception_caught (w : World) (usage : Usage)
    (up fp : spec_float) (t : list event) (e : exn) :
  shutil_disk_usage w path = Ok usage ->
  used_percentage usage = Ok up ->
  free_percentage usage = Ok fp ->
  report_of w (json hostname mount usage up fp) = (t, Raise e) ->
  isinstance_Exception e = true ->
  fst (body_of w) =
    ([EDiskUsage path; posting_log the_url (json hostname mount usage up fp)]
       ++ t ++ [exception_log e; sleeping_log interval; ESleep interval])%list /\
  snd (body_of w) = time_sleep w interval /\
  filter is_error_log (fst (body_of w)) = [exception_log e] /\
  posted_urls (fst (body_of w)) = [the_url] /\
  filter is_disk_usage (fst (body_of w)) = [EDiskUsage path] /\
  sleeps (fst (body_of w)) = [interval] /\
  (forall w' t',
      shutil_disk_usage w' path = Ok usage ->
      report_of w' (json hostname mount usage up fp) = (t', Ok tt) ->
      time_sleep w' interval = time_sleep w interval ->
      sleeps (fst (body_of w')) = sleeps (fst (body_of w)) /\
      snd (body_of w') = snd (body_of w)) /\
  (forall ws,
      time_sleep w interval = Ok tt ->
      loop_of (w :: ws) =
      ((fst (body_of w) ++ fst (loop_of ws))%list, snd (loop_of ws))).
Proof.
  intros Hd Hu Hf Hr He.
  pose proof (loop_body_report_caught w usage up fp t e Hd Hu Hf Hr He) as B.
  destruct (report_trace key hostname mount base w (json hostname mount usage up fp))
    as (Pu & _ & Ps & Pe & Pd).
  rewrite Hr in Pu, Ps, Pe, Pd. cbn [fst] in Pu, Ps, Pe, Pd.
  rewrite B. cbn [fst snd].
  repeat apply conj; try reflexivity.
  - cbn [app filter is_error_log posting_log].
    rewrite filter_app, Pe. reflexivity.
  - rewrite !posted_urls_app, Pu. reflexivity.
  - cbn [app filter is_disk_usage posting_log].
    rewrite filter_app, Pd. reflexivity.
  - rewrite !sleeps_app, Ps. reflexivity.
  - intros w' t' Hd' Hr' Hs'.
    rewrite (loop_body_report_ok w' usage up fp t' Hd' Hu Hf Hr').
    cbn [fst snd].
    destruct (report_trace key hostname mount base w'
                (json hostname mount usage up fp)) as (_ & _ & Ps' & _).
    rewrite Hr' in Ps'. cbn [fst] in Ps'.
    rewrite !sleeps_app, Ps, Ps'. split; [reflexivity | assumption].
  - intros ws Hs. cbn [loop]. rewrite B, Hs.
    destruct (loop_of ws). reflexivity.
Qed.

(** C3, as amended.  For every response the POST returns, whatever its
    status: when the body decodes to a truthy value, that value is logged
    at debug level; when it decodes to a falsy value (an empty object or
    list, zero, null, false, the empty string), nothing is logged for it;
    when it does not decode, the decoder's exception is handled like any
    other failure of the report, logged at error level if it is an
    instance of [Exception].  In the first three cases the iteration ends
    with the sleep. *)
Theorem response_logging (w : World) (usage : Usage) (up fp : spec_float)
    (response : Response) :
  shutil_disk_usage w path = Ok usage ->
  used_percentage usage = Ok up ->
  free_percentage usage = Ok fp ->
  requests_post w the_url the_headers (json hostname mount usage up fp)
  = Ok response ->
  let payload := json hostname mount usage up fp in
  let pre := [EDiskUsage path; posting_log the_url payload;
              EPost the_url the_headers payload; got_response_log response] in
  let post := [sleeping_log interval; ESleep interval] in
  body_of w =
    match response_json response with
    | Ok body =>
        if truthy body
        then ((pre ++ response_json_log body :: post)%list,
              time_sleep w interval)
        else ((pre ++ post)%list, time_sleep w interval)
    | Raise e =>
        if isinstance_Exception e
        then ((pre ++ exception_log e :: post)%list, time_sleep w interval)
        else (pre, Raise e)
    end /\
  filter is_response_json_log (fst (body_of w)) =
    match response_json response with
    | Ok body => if truthy body then [response_json_log body] else []
    | Raise _ => []
    end /\
  filter is_error_log (fst (body_of w)) =
    match response_json response with
    | Ok _ => []
    | Raise e => if isinstance_Exception e then [exception_log e] else []
    end.
Proof.
  intros Hd Hu Hf Hp. cbv zeta.
  rewrite (loop_body_reported _ _ _ _ _ _ w usage up fp Hd Hu Hf). cbv zeta.
  rewrite report_cases, Hp.
  destruct (response_json response) as [body|e].
  - destruct (truthy body); repeat apply conj; reflexivity.
  - destruct (isinstance_Exception e); repeat apply conj; reflexivity.
Qed.

End Failures.

Lemma report_exception_caught_witness :
  isinstance_Exception Examples.refused = true /\
  snd (loop_body "secret" "nas1" "/data" "data" "http://ha:8123/api"
         Examples.sixty Examples.world_refused) = Ok tt /\
  filter is_error_log
    (fst (loop_body "secret" "nas1" "/data" "data" "http://ha:8123/api"
            Examples.sixty Examples.world_refused))
  = [exception_log Examples.refused] /\
  sleeps
    (fst (loop_body "secret" "nas1" "/data" "data" "http://ha:8123/api"
            Examples.sixty Examples.world_refused))
  = [Examples.sixty].
Proof.
  split; [reflexivity|].
  destruct (report_exception_caught
              "secret" "nas1" "/data" "data" "http://ha:8123/api"
              Examples.sixty Examples.world_refused Examples.sample
              (PyFloat.of_Z 40) (PyFloat.of_Z 60)
              [EPost (url "nas1" "data" "http://ha:8123/api")
                     (headers "secret")
                     (json "nas1" "data" Examples.sample
                           (PyFloat.of_Z 40) (PyFloat.of_Z 60))]
              Examples.refused
              eq_refl eq_refl eq_refl eq_refl eq_refl)
    as (_ & Hs & He & _ & _ & Hz & _).
  repeat apply conj; assumption.
Defined.

(** C2 as stated fails for an exception that is no instance of
    [Exception]: a [KeyboardInterrupt] raised while the POST is under way
    leaves [main], with no error log and no sleep, and the next sample is
    never taken. *)
Lemma report_exception_caught_counterexample :
  let run :=
    main Examples.getenv "nas1" "/data" "data" (Some "http://ha:8123/api")
         Examples.sixty [Examples.world_interrupted; Examples.world_ok] in
  snd run = Raised Examples.interrupted /\
  filter is_error_log (fst run) = [] /\
  sleeps (fst run) = [] /\
  filter is_disk_usage (fst run) = [EDiskUsage "/data"] /\
  posted_urls (fst run)
  = ["http://ha:8123/api/states/sensor.nas1_data_disk_usage"].
Proof. vm_compute. repeat apply conj; reflexivity. Qed.

Lemma response_logging_witness :
  filter is_response_json_log
    (fst (loop_body "secret" "nas1" "/data" "data" "http://ha:8123/api"
            Examples.sixty Examples.world_ok))
  = [response_json_log Examples.state_body].
Proof.
  destruct (response_logging
              "secret" "nas1" "/data" "data" "http://ha:8123/api"
              Examples.sixty Examples.world_ok Examples.sample
              (PyFloat.of_Z 40) (PyFloat.of_Z 60)
              (mkResponse 200 (Ok Examples.state_body))
              eq_refl eq_refl eq_refl eq_refl)
    as (_ & H & _).
  exact H.
Defined.

(** C3 as stated fails both ways: the empty JSON object decodes and is not
    logged, and a body that is no JSON is not ignored but reported by the
    error handler. *)
Lemma response_logging_counterexample :
  response_json (mkResponse 200 (Ok (PDict []))) = Ok (PDict []) /\
  filter is_response_json_log
    (fst (main Examples.getenv "nas1" "/data" "data"
               (Some "http://ha:8123/api") Examples.sixty
               [Examples.world_empty_json]))
  = [] /\
  filter is_error_log
    (fst (main Examples.getenv "nas1" "/data" "data"
               (Some "http://ha:8123/api") Examples.sixty
               [Examples.world_not_json]))
  = [exception_log Examples.not_json].
Proof. vm_compute. repeat apply conj; reflexivity. Qed.

(** C9.  An exception raised by the disk query, in any iteration, is not
    caught: [main] ends with it, right after the query, whatever its
    class.  The same exception raised by the POST is caught when it is an
    instance of [Exception]. *)
Theorem disk_failure_fatal (getenv : string -> option string)
    (hostname path mount : string) (ha_rest_api_url : option string)
    (interval : spec_float) (key base : string)
    (ws1 : list World) (w : World) (ws2 : list World) (e : exn) :
  startup getenv ha_rest_api_url interval = ([], Ok (key, base)) ->
  snd (loop key hostname path mount base interval ws1) = Running ->
  shutil_disk_usage w path = Raise e ->
  loop_body key hostname path mount base interval w
  = ([EDiskUsage path], Raise e) /\
  main getenv hostname path mount ha_rest_api_url interval (ws1 ++ w :: ws2)
  = ((fst (loop key hostname path mount base interval ws1)
        ++ [EDiskUsage path])%list,
     Raised e) /\
  (forall w' usage up fp,
      shutil_disk_usage w' path = Ok usage ->
      used_percentage usage = Ok up ->
      free_percentage usage = Ok fp ->
      requests_post w' (url hostname mount base) (headers key)
                    (json hostname mount usage up fp) = Raise e ->
      isinstance_Exception e = true ->
      snd (loop_body key hostname path mount base interval w')
      = time_sleep w' interval).
Proof.
  intros Hs Hr Hd.
  pose proof (loop_body_disk_raise key hostname path mount base interval w e Hd)
    as B.
  repeat apply conj.
  - exact B.
  - rewrite (main_started _ _ _ _ _ _ _ key base Hs).
    rewrite (loop_app _ _ _ _ _ _ ws1 (w :: ws2) Hr).
    cbn [loop]. rewrite B. reflexivity.
  - intros w' usage up fp Hd' Hu Hf Hp He.
    rewrite (loop_body_report_caught key hostname path mount base interval
               w' usage up fp
               [EPost (url hostname mount base) (headers key)
                      (json hostname mount usage up fp)] e Hd' Hu Hf);
      [reflexivity| |exact He].
    rewrite report_cases, Hp. reflexivity.
Qed.

Lemma disk_failure_fatal_witness :
  main Examples.getenv "nas1" "/data" "data" (Some "http://ha:8123/api")
       Examples.sixty
       ([Examples.world_ok] ++ Examples.world_no_disk :: [Examples.world_ok])
  = ((fst (loop "secret" "nas1" "/data" "data" "http://ha:8123/api"
             Examples.sixty [Examples.world_ok])
        ++ [EDiskUsage "/data"])%list,
     Raised Examples.no_such_path).
Proof.
  destruct (disk_failure_fatal
              Examples.getenv "nas1" "/data" "data" (Some "http://ha:8123/api")
              Examples.sixty "secret" "http://ha:8123/api"
              [Examples.world_ok] Examples.world_no_disk [Examples.world_ok]
              Examples.no_such_path eq_refl eq_refl eq_refl)
    as (_ & H & _).
  exact H.
Defined.

(** ** Start-up checks (C4, C5, C10) *)

Lemma startup_key_falsy (getenv : string -> option string)
    (ha_rest_api_url : option string) (interval : spec_float) :
  truthy_str (getenv "HA_API_KEY") = false ->
  startup getenv ha_rest_api_url interval
  = ([], Raise (mkExn AssertionError key_message)).
Proof.
  intros H. unfold startup. rewrite (assert_str_fails _ _ H). reflexivity.
Qed.

Lemma startup_url_falsy (getenv : string -> option string)
    (ha_rest_api_url : option string) (interval : spec_float) :
  truthy_str (getenv "HA_API_KEY") = true ->
  truthy_str ha_rest_api_url = false ->
  startup getenv ha_rest_api_url interval
  = ([], Raise (mkExn AssertionError url_message)).
Proof.
  intros Hk Hu. unfold startup.
  destruct (assert_str_passes _ key_message Hk) as (key & _ & _ & E).
  unfold key_message in E. rewrite E. run_monad.
  rewrite (assert_str_fails _ _ Hu). reflexivity.
Qed.

Lemma startup_interval_rejected (getenv : string -> option string)
    (ha_rest_api_url : option string) (interval : spec_float) :
  truthy_str (getenv "HA_API_KEY") = true ->
  truthy_str ha_rest_api_url = true ->
  PyFloat.gt_zero interval = false ->
  startup getenv ha_rest_api_url interval
  = ([], Raise (mkExn AssertionError interval_message)).
Proof.
  intros Hk Hu Hi. unfold startup.
  destruct (assert_str_passes _ key_message Hk) as (key & _ & _ & E).
  unfold key_message in E. rewrite E. run_monad.
  destruct (assert_str_passes _ url_message Hu) as (base & _ & _ & E').
  unfold url_message in E'. rewrite E'. run_monad.
  rewrite Hi. reflexivity.
Qed.

Lemma startup_passes (getenv : string -> option string)
    (ha_rest_api_url : option string) (interval : spec_float)
    (key base : string) :
  getenv "HA_API_KEY" = Some key -> key <> EmptyString ->
  ha_rest_api_url = Some base -> base <> EmptyString ->
  PyFloat.gt_zero interval = true ->
  startup getenv ha_rest_api_url interval = ([], Ok (key, base)).
Proof.
  intros Ek Nk Eb Nb Hi. unfold startup.
  rewrite (assert_str_ok _ _ key Ek Nk). run_monad.
  rewrite (assert_str_ok _ _ base Eb Nb). run_monad.
  rewrite Hi. reflexivity.
Qed.

(** C4.  When the API key or the base URL is missing, [main] fails at once
    with an [AssertionError] that names what is missing, before the loop:
    its trace is empty, so no disk sample is taken and no request sent. *)
Theorem missing_configuration_rejected (getenv : string -> option string)
    (hostname path mount : string) (ha_rest_api_url : option string)
    (interval : spec_float) (ws : list World) :
  getenv "HA_API_KEY" = None \/ ha_rest_api_url = None ->
  exists msg,
    main getenv hostname path mount ha_rest_api_url interval ws
    = ([], Raised (mkExn AssertionError msg)) /\
    (msg = key_message \/ msg = url_message) /\
    (getenv "HA_API_KEY" = None -> msg = key_message) /\
    (truthy_str (getenv "HA_API_KEY") = true -> msg = url_message).
Proof.
  intros H.
  destruct (truthy_str (getenv "HA_API_KEY")) eqn:Hk.
  - destruct H as [H|H]; [rewrite H in Hk; discriminate Hk|].
    exists url_message. repeat apply conj; auto.
    + apply main_rejected, startup_url_falsy; [assumption|].
      rewrite H. reflexivity.
    + intros E. rewrite E in Hk. discriminate Hk.
  - exists key_message. repeat apply conj; auto.
    + apply main_rejected, startup_key_falsy. assumption.
    + discriminate.
Qed.

Lemma missing_configuration_rejected_witness :
  exists msg,
    main Examples.getenv_unset "nas1" "/data" "data"
         (Some "http://ha:8123/api") Examples.sixty [Examples.world_ok]
    = ([], Raised (mkExn AssertionError msg)) /\ msg = key_message.
Proof.
  destruct (missing_configuration_rejected
              Examples.getenv_unset "nas1" "/data" "data"
              (Some "http://ha:8123/api") Examples.sixty [Examples.world_ok]
              (or_introl eq_refl))
    as (msg & E & _ & K & _).
  exists msg. split; [exact E | exact (K eq_refl)].
Defined.

(** C5.  For every interval that is [<= 0], [main] fails with an
    [AssertionError] before the loop (its trace is empty), with the
    message of the interval check when key and URL are there.  For every
    interval [> 0] the interval check passes: the assertions can raise
    only for the key or the URL, and with both there [main] is the loop. *)
Theorem interval_checked (getenv : string -> option string)
    (hostname path mount : string) (ha_rest_api_url : option string)
    (interval : spec_float) (ws : list World) :
  (PyFloat.le_zero interval = true ->
   exists msg,
     main getenv hostname path mount ha_rest_api_url interval ws
     = ([], Raised (mkExn AssertionError msg)) /\
     (truthy_str (getenv "HA_API_KEY") = true ->
      truthy_str ha_rest_api_url = true -> msg = interval_message)) /\
  (PyFloat.gt_zero interval = true ->
   assert (PyFloat.gt_zero interval) interval_message = ret tt /\
   snd (startup getenv ha_rest_api_url interval)
   <> Raise (mkExn AssertionError interval_message) /\
   (forall key base,
       getenv "HA_API_KEY" = Some key -> key <> EmptyString ->
       ha_rest_api_url = Some base -> base <> EmptyString ->
       main getenv hostname path mount ha_rest_api_url interval ws
       = loop key hostname path mount base interval ws)).
Proof.
  split.
  - intros Hle. apply le_zero_not_gt_zero in Hle.
    destruct (truthy_str (getenv "HA_API_KEY")) eqn:Hk.
    + destruct (truthy_str ha_rest_api_url) eqn:Hu.
      * exists interval_message. split; [|reflexivity].
        apply main_rejected, startup_interval_rejected; assumption.
      * exists url_message. split; [|discriminate].
        apply main_rejected, startup_url_falsy; assumption.
    + exists key_message. split; [|discriminate].
      apply main_rejected, startup_key_falsy; assumption.
  - intros Hgt. repeat apply conj.
    + unfold assert. rewrite Hgt. reflexivity.
    + destruct (truthy_str (getenv "HA_API_KEY")) eqn:Hk.
      * destruct (truthy_str ha_rest_api_url) eqn:Hu.
        -- destruct (assert_str_passes _ key_message Hk) as (key & Ek & Nk & _).
           destruct (assert_str_passes _ url_message Hu) as (base & Eb & Nb & _).
           rewrite (startup_passes _ _ _ key base Ek Nk Eb Nb Hgt).
           discriminate.
        -- rewrite (startup_url_falsy _ _ _ Hk Hu). discriminate.
      * rewrite (startup_key_falsy _ _ _ Hk). discriminate.
    + intros key base Ek Nk Eb Nb.
      apply main_started, startup_passes; assumption.
Qed.

Lemma interval_checked_witness :
  PyFloat.le_zero Examples.minus_one = true /\
  PyFloat.gt_zero Examples.sixty = true /\
  main Examples.getenv "nas1" "/data" "data" (Some "http://ha:8123/api")
       Examples.minus_one [Examples.world_ok]
  = ([], Raised (mkExn AssertionError interval_message)) /\
  main Examples.getenv "nas1" "/data" "data" (Some "http://ha:8123/api")
       Examples.sixty [Examples.world_ok]
  = loop "secret" "nas1" "/data" "data" "http://ha:8123/api" Examples.sixty
         [Examples.world_ok].
Proof.
  split; [reflexivity|]. split; [reflexivity|]. split.
  - destruct (proj1 (interval_checked
                       Examples.getenv "nas1" "/data" "data"
                       (Some "http://ha:8123/api") Examples.minus_one
                       [Examples.world_ok]) eq_refl)
      as (msg & E & M).
    rewrite E, (M eq_refl eq_refl). reflexivity.
  - destruct (proj2 (interval_checked
                       Examples.getenv "nas1" "/data" "data"
                       (Some "http://ha:8123/api") Examples.sixty
                       [Examples.world_ok]) eq_refl)
      as (_ & _ & L).
    apply L; [reflexivity | discriminate | reflexivity | discriminate].
Defined.

(** C10.  An empty-string key or base URL is rejected exactly like an
    absent one: [main] gives the same result for the one and the other,
    the assertion's error and an empty trace, so the empty string never
    reaches the loop. *)
Theorem empty_string_rejected (getenv getenv' : string -> option string)
    (hostname path mount : string) (ha_rest_api_url : option string)
    (interval : spec_float) (ws : list World) :
  (getenv "HA_API_KEY" = Some EmptyString ->
   getenv' "HA_API_KEY" = None ->
   main getenv hostname path mount ha_rest_api_url interval ws
   = ([], Raised (mkExn AssertionError key_message)) /\
   main getenv hostname path mount ha_rest_api_url interval ws
   = main getenv' hostname path mount ha_rest_api_url interval ws) /\
  (main getenv hostname path mount (Some EmptyString) interval ws
   = main getenv hostname path mount None interval ws /\
   fst (main getenv hostname path mount (Some EmptyString) interval ws) = [] /\
   (truthy_str (getenv "HA_API_KEY") = true ->
    main getenv hostname path mount (Some EmptyString) interval ws
    = ([], Raised (mkExn AssertionError url_message)))).
Proof.
  split.
  - intros E E'.
    assert (H : truthy_str (getenv "HA_API_KEY") = false) by (rewrite E; reflexivity).
    assert (H' : truthy_str (getenv' "HA_API_KEY") = false) by (rewrite E'; reflexivity).
    rewrite (main_rejected _ _ _ _ _ _ _ _ (startup_key_falsy _ _ _ H)).
    rewrite (main_rejected _ _ _ _ _ _ _ _ (startup_key_falsy _ _ _ H')).
    split; reflexivity.
  - destruct (truthy_str (getenv "HA_API_KEY")) eqn:Hk.
    + rewrite (main_rejected getenv hostname path mount (Some EmptyString) _ _ _
                 (startup_url_falsy getenv (Some EmptyString) interval
                    Hk eq_refl)).
      rewrite (main_rejected getenv hostname path mount None _ _ _
                 (startup_url_falsy getenv None interval Hk eq_refl)).
      repeat apply conj; reflexivity.
    + rewrite (main_rejected getenv hostname path mount (Some EmptyString) _ _ _
                 (startup_key_falsy getenv (Some EmptyString) interval Hk)).
      rewrite (main_rejected getenv hostname path mount None _ _ _
                 (startup_key_falsy getenv None interval Hk)).
      repeat apply conj; try reflexivity. discriminate.
Qed.

Lemma empty_string_rejected_witness :
  main Examples.getenv_empty "nas1" "/data" "data" (Some "http://ha:8123/api")
       Examples.sixty [Examples.world_ok]
  = main Examples.getenv_unset "nas1" "/data" "data"
         (Some "http://ha:8123/api") Examples.sixty [Examples.world_ok] /\
  main Examples.getenv "nas1" "/data" "data" (Some EmptyString)
       Examples.sixty [Examples.world_ok]
  = ([], Raised (mkExn AssertionError url_message)).
Proof.
  split.
  - apply (proj1 (empty_string_rejected
                    Examples.getenv_empty Examples.getenv_unset
                    "nas1" "/data" "data" (Some "http://ha:8123/api")
                    Examples.sixty [Examples.world_ok]));
      reflexivity.
  - apply (proj2 (empty_string_rejected
                    Examples.getenv Examples.getenv
                    "nas1" "/data" "data" (Some "http://ha:8123/api")
                    Examples.sixty [Examples.world_ok])).
    reflexivity.
Defined.

(** ** The request (C6, C8) *)

(** C6, as amended.  Every URL that [main] posts to is
    [os.path.join(base, "states", entity)]: the base URL, a [/] unless the
    base already ends with one, [states/], and the entity identifier
    [sensor.{hostname}_{mount}_disk_usage], in which hostname and mount
    stand unchanged.  For a base that does not end with [/] this is
    [{base}/states/sensor.{hostname}_{mount}_disk_usage]; an iteration
    that reaches the report posts to it once; for hostname nas1 and mount
    data the identifier is [sensor.nas1_data_disk_usage]. *)
Theorem posted_url (getenv : string -> option string)
    (hostname path mount : string) (ha_rest_api_url : option string)
    (interval : spec_float) (ws : list World) (u : string) :
  In u (posted_urls
          (fst (main getenv hostname path mount ha_rest_api_url interval ws))) ->
  exists base,
    ha_rest_api_url = Some base /\ base <> EmptyString /\
    u = url hostname mount base /\
    u = (base ++ (if posixpath.endswith_sep base then EmptyString else "/")
              ++ "states/" ++ entity_id hostname mount)%string /\
    entity_id hostname mount
    = ("sensor." ++ hostname ++ "_" ++ mount ++ "_disk_usage")%string /\
    (posixpath.endswith_sep base = false ->
     u = url_as_specified base hostname mount) /\
    (forall key w usage up fp,
        shutil_disk_usage w path = Ok usage ->
        used_percentage usage = Ok up ->
        free_percentage usage = Ok fp ->
        posted_urls (fst (loop_body key hostname path mount base interval w))
        = [u]) /\
    entity_id "nas1" "data" = "sensor.nas1_data_disk_usage".
Proof.
  intros Hin.
  destruct (startup_cases getenv ha_rest_api_url interval)
    as [(msg & E)|(key & base & Ek & Nk & Eb & Nb & Hi & E)].
  - rewrite (main_rejected _ _ _ _ _ _ _ _ E) in Hin. destruct Hin.
  - rewrite (main_started _ _ _ _ _ _ _ key base E) in Hin.
    pose proof (loop_posts_only_url key hostname path mount base interval ws)
      as F.
    rewrite Forall_forall in F. specialize (F u Hin). subst u.
    exists base. repeat apply conj; try assumption; try reflexivity.
    + apply url_eq; assumption.
    + intros He. apply url_eq_specified; assumption.
    + intros key' w usage up fp Hd Hu Hf.
      apply (loop_body_posts key' hostname path mount base interval
               w usage up fp Hd Hu Hf).
Qed.

Lemma posted_url_witness :
  In "http://ha:8123/api/states/sensor.nas1_data_disk_usage"
     (posted_urls
        (fst (main Examples.getenv "nas1" "/data" "data"
                   (Some "http://ha:8123/api") Examples.sixty
                   [Examples.world_ok]))) /\
  exists base,
    Some "http://ha:8123/api" = Some base /\
    "http://ha:8123/api/states/sensor.nas1_data_disk_usage"
    = url_as_specified base "nas1" "data".
Proof.
  assert (H : In "http://ha:8123/api/states/sensor.nas1_data_disk_usage"
                 (posted_urls
                    (fst (main Examples.getenv "nas1" "/data" "data"
                               (Some "http://ha:8123/api") Examples.sixty
                               [Examples.world_ok])))).
  { vm_compute. left. reflexivity. }
  split; [exact H|].
  destruct (posted_url Examples.getenv "nas1" "/data" "data"
              (Some "http://ha:8123/api") Examples.sixty [Examples.world_ok]
              "http://ha:8123/api/states/sensor.nas1_data_disk_usage" H)
    as (base & Eb & _ & _ & _ & _ & S & _).
  exists base. split; [exact Eb|].
  apply S. injection Eb as <-. reflexivity.
Defined.

(** C6 as stated fails for a base URL that ends with [/]: the program
    posts to [{base}states/...], with the one slash of the base, not to
    [{base}/states/...]. *)
Lemma posted_url_counterexample :
  posted_urls
    (fst (main Examples.getenv "nas1" "/data" "data"
               (Some "http://ha:8123/api/") Examples.sixty
               [Examples.world_ok]))
  = ["http://ha:8123/api/states/sensor.nas1_data_disk_usage"] /\
  url_as_specified "http://ha:8123/api/" "nas1" "data"
  = "http://ha:8123/api//states/sensor.nas1_data_disk_usage" /\
  url "nas1" "data" "http://ha:8123/api/"
  <> url_as_specified "http://ha:8123/api/" "nas1" "data".
Proof.
  vm_compute. repeat apply conj; try reflexivity. discriminate.
Qed.

(** C8.  The JSON body an iteration posts is [json hostname mount usage up
    fp], a function of the sample and of hostname and mount alone.  Its
    keys are [state] and [attributes], in this order; [state] is the used
    percentage; [attributes] has exactly the keys [friendly_name],
    [unit_of_measurement], [used_percentage], [free_percentage],
    [total_bytes], [used_bytes] and [free_bytes], with the friendly name
    [{hostname} {mount} Disk Usage], the unit [%], the two percentages and
    the three byte counts of the sample. *)
Theorem payload_fields (key hostname path mount base : string)
    (interval : spec_float) (w : World) (usage : Usage) (up fp : spec_float) :
  shutil_disk_usage w path = Ok usage ->
  used_percentage usage = Ok up ->
  free_percentage usage = Ok fp ->
  exists payload attributes,
    posted_json (fst (loop_body key hostname path mount base interval w))
    = [payload] /\
    payload = json hostname mount usage up fp /\
    dict_keys payload = ["state"; "attributes"] /\
    dict_get payload "state" = Some (PFloat up) /\
    dict_get payload "attributes" = Some attributes /\
    dict_keys attributes
    = ["friendly_name"; "unit_of_measurement"; "used_percentage";
       "free_percentage"; "total_bytes"; "used_bytes"; "free_bytes"] /\
    dict_get attributes "friendly_name"
    = Some (PStr (hostname ++ " " ++ mount ++ " Disk Usage")) /\
    dict_get attributes "unit_of_measurement" = Some (PStr "%") /\
    dict_get attributes "used_percentage" = Some (PFloat up) /\
    dict_get attributes "free_percentage" = Some (PFloat fp) /\
    dict_get attributes "total_bytes" = Some (PInt (total usage)) /\
    dict_get attributes "used_bytes" = Some (PInt (used usage)) /\
    dict_get attributes "free_bytes" = Some (PInt (free usage)).
Proof.
  intros Hd Hu Hf.
  destruct (loop_body_posts key hostname path mount base interval
              w usage up fp Hd Hu Hf) as [_ Pj].
  eexists. eexists. split; [exact Pj|].
  repeat apply conj; reflexivity.
Qed.

Lemma payload_fields_witness :
  exists payload,
    posted_json
      (fst (loop_body "secret" "nas1" "/data" "data" "http://ha:8123/api"
              Examples.sixty Examples.world_ok))
    = [payload] /\
    dict_get payload "state" = Some (PFloat (PyFloat.of_Z 40)).
Proof.
  destruct (payload_fields "secret" "nas1" "/data" "data" "http://ha:8123/api"
              Examples.sixty Examples.world_ok Examples.sample
              (PyFloat.of_Z 40) (PyFloat.of_Z 60) eq_refl eq_refl eq_refl)
    as (payload & attributes & P & _ & _ & S & _).
  exists payload. split; assumption.
Defined.

(** * More properties of the loop *)

Section LoopFacts.

Variables (key hostname path mount base : string).
Variable interval : spec_float.

Local Abbreviation the_url := (url hostname mount base).
Local Abbreviation the_headers := (headers key).
Local Abbreviation body_of := (loop_body key hostname path mount base interval).
Local Abbreviation report_of := (report key hostname mount base).
Local Abbreviation loop_of := (loop key hostname path mount base interval).

Lemma phase_run_app (p : phase) (t1 t2 : list event) :
  phase_run p (t1 ++ t2) =
  match phase_run p t1 with
  | Some p' => phase_run p' t2
  | None => None
  end.
Proof.
  revert p. induction t1 as [|ev t1 IH]; intros p; cbn [app phase_run].
  - reflexivity.
  - destruct (phase_step p ev); [apply IH | reflexivity].
Qed.

Lemma posted_headers_app (t1 t2 : list event) :
  posted_headers (t1 ++ t2) = (posted_headers t1 ++ posted_headers t2)%list.
Proof. apply flat_map_app. Qed.

(** The [try] block takes a sampled iteration to a posted one, and its one
    POST carries the [Authorization] header. *)
Lemma report_phase (w : World) (payload : pyval) :
  phase_run Sampled (fst (report_of w payload)) = Some Posted /\
  posted_headers (fst (report_of w payload)) = [the_headers].
Proof.
  rewrite report_cases.
  destruct (requests_post w the_url the_headers payload) as [response|e];
    [|split; reflexivity].
  destruct (response_json response) as [body|e]; [|split; reflexivity].
  destruct (truthy body); split; reflexivity.
Qed.

(** The ways an iteration can go: it stops at the disk query or at a
    division, with the query as its only event; it stops in the report,
    with no sleep; or it reaches the sleep, whose result is its result. *)
Lemma loop_body_shape (w : World) :
  (exists e, body_of w = ([EDiskUsage path], Raise e)) \/
  (exists usage up fp t e,
      shutil_disk_usage w path = Ok usage /\
      report_of w (json hostname mount usage up fp) = (t, Raise e) /\
      isinstance_Exception e = false /\
      body_of w =
      (([EDiskUsage path;
         posting_log the_url (json hostname mount usage up fp)] ++ t)%list,
       Raise e)) \/
  (exists usage up fp t l,
      shutil_disk_usage w path = Ok usage /\
      fst (report_of w (json hostname mount usage up fp)) = t /\
      (l = [] \/ exists e, l = [exception_log e]) /\
      body_of w =
      (([EDiskUsage path;
         posting_log the_url (json hostname mount usage up fp)]
          ++ t ++ l ++ [sleeping_log interval; ESleep interval])%list,
       time_sleep w interval)).
Proof.
  destruct (shutil_disk_usage w path) as [usage|e] eqn:Hd.
  2:{ left. exists e. apply loop_body_disk_raise, Hd. }
  destruct (used_percentage usage) as [up|e] eqn:Hu.
  2:{ left. exists e.
      apply (loop_body_used_raise _ _ _ _ _ _ w usage e Hd Hu). }
  destruct (free_percentage usage) as [fp|e] eqn:Hf.
  2:{ left. exists e.
      apply (loop_body_free_raise _ _ _ _ _ _ w usage up e Hd Hu Hf). }
  destruct (report_of w (json hostname mount usage up fp)) as [t [[]|e]] eqn:Hr.
  - right. right. exists usage, up, fp, t, []. rewrite Hr.
    repeat apply conj; auto.
    apply (loop_body_report_ok _ _ _ _ _ _ w usage up fp t Hd Hu Hf Hr).
  - destruct (isinstance_Exception e) eqn:He.
    + right. right. exists usage, up, fp, t, [exception_log e]. rewrite Hr.
      repeat apply conj; eauto.
      apply (loop_body_report_caught _ _ _ _ _ _ w usage up fp t e
               Hd Hu Hf Hr He).
    + right. left. exists usage, up, fp, t, e. rewrite Hr.
      repeat apply conj; auto.
      apply (loop_body_report_uncaught _ _ _ _ _ _ w usage up fp t e
               Hd Hu Hf Hr He).
Qed.

(** What one iteration adds to a trace. *)
Lemma loop_body_counts (w : World) :
  exists p,
    phase_run Idle (fst (body_of w)) = Some p /\
    filter is_disk_usage (fst (body_of w)) = [EDiskUsage path] /\
    Forall (fun h => h = the_headers) (posted_headers (fst (body_of w))) /\
    (forall u, snd (body_of w) = Ok u ->
       p = Idle /\ posted_urls (fst (body_of w)) = [the_url] /\
       sleeps (fst (body_of w)) = [interval]) /\
    (length (sleeps (fst (body_of w)))
     <= length (posted_urls (fst (body_of w))) <= 1)%nat /\
    Forall (fun s => s = interval) (sleeps (fst (body_of w))).
Proof.
  destruct (loop_body_shape w)
    as [(e & B)|[(usage & up & fp & t & e & Hd & Hr & He & B)
                |(usage & up & fp & t & l & Hd & Ht & Hl & B)]].
  - rewrite B. exists Sampled. cbn.
    repeat apply conj; auto; try discriminate.
  - destruct (report_trace key hostname mount base w
                (json hostname mount usage up fp)) as (Pu & _ & Ps & _ & Pd).
    destruct (report_phase w (json hostname mount usage up fp)) as (Pp & Ph).
    rewrite Hr in Pu, Ps, Pd, Pp, Ph. cbn [fst] in Pu, Ps, Pd, Pp, Ph.
    rewrite B. exists Posted. cbn [fst snd].
    rewrite posted_urls_app, sleeps_app, posted_headers_app, filter_app.
    rewrite Pu, Ps, Pd, Ph.
    cbn [app phase_run phase_step posting_log]. rewrite Pp.
    repeat apply conj; cbn; auto; try discriminate.
  - destruct (report_trace key hostname mount base w
                (json hostname mount usage up fp)) as (Pu & _ & Ps & _ & Pd).
    destruct (report_phase w (json hostname mount usage up fp)) as (Pp & Ph).
    rewrite Ht in Pu, Ps, Pd, Pp, Ph.
    rewrite B. exists Idle. cbn [fst snd].
    rewrite !posted_urls_app, !sleeps_app, !posted_headers_app, !filter_app.
    rewrite Pu, Ps, Pd, Ph.
    cbn [app phase_run phase_step posting_log]. rewrite !phase_run_app, Pp.
    destruct Hl as [->|[e ->]]; cbn; repeat apply conj; auto.
Qed.

(** What a run of the loop adds up to. *)
Lemma loop_counts (ws : list World) :
  exists p,
    phase_run Idle (fst (loop_of ws)) = Some p /\
    (snd (loop_of ws) = Running -> p = Idle) /\
    Forall (fun h => h = the_headers) (posted_headers (fst (loop_of ws))) /\
    Forall (fun s => s = interval) (sleeps (fst (loop_of ws))) /\
    (length (sleeps (fst (loop_of ws)))
     <= length (posted_urls (fst (loop_of ws))))%nat /\
    (length (posted_urls (fst (loop_of ws)))
     <= length (filter is_disk_usage (fst (loop_of ws))) <= length ws)%nat /\
    (length (filter is_disk_usage (fst (loop_of ws)))
     <= length (sleeps (fst (loop_of ws))) + 1)%nat /\
    (snd (loop_of ws) = Running ->
     length (sleeps (fst (loop_of ws))) = length ws).
Proof.
  induction ws as [|w ws IH]; cbn [loop].
  - exists Idle. cbn. repeat apply conj; auto.
  - destruct (loop_body_counts w) as (p & Pp & Pd & Ph & Pok & Pn & Ps).
    destruct (body_of w) as [t [[]|e]]; cbn [fst snd] in *.
    + destruct (Pok tt eq_refl) as (-> & Pu & Pz).
      destruct IH as (p' & Qp & Qr & Qh & Qs & Qn & Qm & Qd & Ql).
      destruct (loop_of ws) as [t' o]. cbn [fst snd] in *.
      exists p'.
      rewrite phase_run_app, Pp, posted_headers_app, sleeps_app,
        posted_urls_app, filter_app, !length_app, Pd, Pu, Pz.
      cbn [length].
      repeat apply conj; try (apply Forall_app; split); auto; lia.
    + exists p. rewrite Pd. cbn [length].
      repeat apply conj; auto; try lia; discriminate.
Qed.

End LoopFacts.

(** ** Runs of [main] *)

(** X1.  In every run of [main] the calls to the outside come in the order
    disk query, POST, sleep, again and again: never a POST without a
    sample taken for it, never a second query or POST before the sleep;
    and a run that is still going has finished its last iteration. *)
Theorem calls_in_order (getenv : string -> option string)
    (hostname path mount : string) (ha_rest_api_url : option string)
    (interval : spec_float) (ws : list World) :
  exists p,
    phase_run Idle
      (fst (main getenv hostname path mount ha_rest_api_url interval ws))
    = Some p /\
    (snd (main getenv hostname path mount ha_rest_api_url interval ws)
     = Running -> p = Idle).
Proof.
  destruct (startup_cases getenv ha_rest_api_url interval)
    as [(msg & E)|(key & base & _ & _ & _ & _ & _ & E)].
  - rewrite (main_rejected _ _ _ _ _ _ _ _ E). exists Idle.
    split; [reflexivity | discriminate].
  - rewrite (main_started _ _ _ _ _ _ _ key base E).
    destruct (loop_counts key hostname path mount base interval ws)
      as (p & Hp & Hr & _).
    exists p. split; assumption.
Qed.

Lemma calls_in_order_witness :
  phase_run Idle
    (fst (main Examples.getenv "nas1" "/data" "data"
               (Some "http://ha:8123/api") Examples.sixty
               [Examples.world_ok; Examples.world_refused]))
  = Some Idle.
Proof.
  destruct (calls_in_order Examples.getenv "nas1" "/data" "data"
              (Some "http://ha:8123/api") Examples.sixty
              [Examples.world_ok; Examples.world_refused])
    as (p & Hp & Hr).
  rewrite Hp. f_equal. apply Hr. reflexivity.
Defined.

(** X2.  A run against [n] worlds makes at most [n] disk queries, at most
    one POST per query and at most one sleep per POST; at most one
    iteration is left unfinished; and a run that is still going has made
    exactly [n] queries, [n] POSTs and [n] sleeps. *)
Theorem one_post_per_iteration (getenv : string -> option string)
    (hostname path mount : string) (ha_rest_api_url : option string)
    (interval : spec_float) (ws : list World) :
  let t := fst (main getenv hostname path mount ha_rest_api_url interval ws) in
  (length (sleeps t) <= length (posted_urls t))%nat /\
  (length (posted_urls t) <= length (filter is_disk_usage t))%nat /\
  (length (filter is_disk_usage t) <= length ws)%nat /\
  (length (filter is_disk_usage t) <= length (sleeps t) + 1)%nat /\
  (snd (main getenv hostname path mount ha_rest_api_url interval ws) = Running ->
   length (filter is_disk_usage t) = length ws /\
   length (posted_urls t) = length ws /\
   length (sleeps t) = length ws).
Proof.
  cbv zeta.
  destruct (startup_cases getenv ha_rest_api_url interval)
    as [(msg & E)|(key & base & _ & _ & _ & _ & _ & E)].
  - rewrite (main_rejected _ _ _ _ _ _ _ _ E). cbn.
    repeat apply conj; try lia. discriminate.
  - rewrite (main_started _ _ _ _ _ _ _ key base E).
    destruct (loop_counts key hostname path mount base interval ws)
      as (p & _ & _ & _ & _ & H1 & H2 & H3 & H4).
    repeat apply conj; try lia; intros Ho; specialize (H4 Ho); lia.
Qed.

Lemma one_post_per_iteration_witness :
  length (posted_urls
            (fst (main Examples.getenv "nas1" "/data" "data"
                       (Some "http://ha:8123/api") Examples.sixty
                       [Examples.world_ok; Examples.world_refused])))
  = 2%nat.
Proof.
  destruct (one_post_per_iteration Examples.getenv "nas1" "/data" "data"
              (Some "http://ha:8123/api") Examples.sixty
              [Examples.world_ok; Examples.world_refused])
    as (_ & _ & _ & _ & H).
  destruct (H eq_refl) as (_ & Hp & _). exact Hp.
Defined.

(** X3.  Every sleep of a run lasts the interval [main] was given, and
    that interval is [> 0]: the loop never spins. *)
Theorem sleeps_positive_interval (getenv : string -> option string)
    (hostname path mount : string) (ha_rest_api_url : option string)
    (interval : spec_float) (ws : list World) (s : spec_float) :
  In s (sleeps
          (fst (main getenv hostname path mount ha_rest_api_url interval ws))) ->
  s = interval /\ PyFloat.gt_zero s = true.
Proof.
  destruct (startup_cases getenv ha_rest_api_url interval)
    as [(msg & E)|(key & base & _ & _ & _ & _ & Hi & E)].
  - rewrite (main_rejected _ _ _ _ _ _ _ _ E). intros [].
  - rewrite (main_started _ _ _ _ _ _ _ key base E). intros Hin.
    destruct (loop_counts key hostname path mount base interval ws)
      as (p & _ & _ & _ & Hs & _).
    rewrite Forall_forall in Hs. rewrite (Hs s Hin). split; [reflexivity|exact Hi].
Qed.

Lemma sleeps_positive_interval_witness :
  In Examples.sixty
     (sleeps (fst (main Examples.getenv "nas1" "/data" "data"
                        (Some "http://ha:8123/api") Examples.sixty
                        [Examples.world_ok]))) /\
  PyFloat.gt_zero Examples.sixty = true.
Proof.
  assert (H : In Examples.sixty
                 (sleeps (fst (main Examples.getenv "nas1" "/data" "data"
                                    (Some "http://ha:8123/api") Examples.sixty
                                    [Examples.world_ok])))).
  { vm_compute. left. reflexivity. }
  split; [exact H|].
  apply (sleeps_positive_interval Examples.getenv "nas1" "/data" "data"
           (Some "http://ha:8123/api") Examples.sixty [Examples.world_ok]
           Examples.sixty H).
Defined.

(** X4.  Every POST of a run carries exactly one header, [Authorization],
    whose value is [Bearer] and the key of the environment, which is not
    empty. *)
Theorem authorization_on_every_post (getenv : string -> option string)
    (hostname path mount : string) (ha_rest_api_url : option string)
    (interval : spec_float) (ws : list World) (h : list (string * string)) :
  In h (posted_headers
          (fst (main getenv hostname path mount ha_rest_api_url interval ws))) ->
  exists key,
    getenv "HA_API_KEY" = Some key /\ key <> EmptyString /\
    h = [("Authorization", ("Bearer " ++ key)%string)].
Proof.
  destruct (startup_cases getenv ha_rest_api_url interval)
    as [(msg & E)|(key & base & Ek & Nk & _ & _ & _ & E)].
  - rewrite (main_rejected _ _ _ _ _ _ _ _ E). intros [].
  - rewrite (main_started _ _ _ _ _ _ _ key base E). intros Hin.
    destruct (loop_counts key hostname path mount base interval ws)
      as (p & _ & _ & Hh & _).
    rewrite Forall_forall in Hh. exists key.
    repeat apply conj; try assumption. apply (Hh h Hin).
Qed.

Lemma authorization_on_every_post_witness :
  exists key,
    Examples.getenv "HA_API_KEY" = Some key /\
    [("Authorization", "Bearer secret")]
    = [("Authorization", ("Bearer " ++ key)%string)].
Proof.
  assert (H : In [("Authorization", "Bearer secret")]
                 (posted_headers
                    (fst (main Examples.getenv "nas1" "/data" "data"
                               (Some "http://ha:8123/api") Examples.sixty
                               [Examples.world_ok])))).
  { vm_compute. left. reflexivity. }
  destruct (authorization_on_every_post
              Examples.getenv "nas1" "/data" "data"
              (Some "http://ha:8123/api") Examples.sixty [Examples.world_ok]
              [("Authorization", "Bearer secret")] H)
    as (key & Ek & _ & Eh).
  exists key. split; assumption.
Defined.

(** X5.  A sample whose total is 0 is fatal: the division raises
    [ZeroDivisionError] outside the [try] block, so [main] ends with it
    right after the disk query, in whatever iteration, with no POST and
    no sleep for that sample. *)
Theorem zero_total_fatal (getenv : string -> option string)
    (hostname path mount : string) (ha_rest_api_url : option string)
    (interval : spec_float) (key base : string)
    (ws1 : list World) (w : World) (ws2 : list World) (usage : Usage) :
  startup getenv ha_rest_api_url interval = ([], Ok (key, base)) ->
  snd (loop key hostname path mount base interval ws1) = Running ->
  shutil_disk_usage w path = Ok usage ->
  total usage = 0 ->
  main getenv hostname path mount ha_rest_api_url interval (ws1 ++ w :: ws2)
  = ((fst (loop key hostname path mount base interval ws1)
        ++ [EDiskUsage path])%list,
     Raised (mkExn ZeroDivisionError "division by zero")).
Proof.
  intros Hs Hr Hd Ht.
  rewrite (main_started _ _ _ _ _ _ _ key base Hs).
  rewrite (loop_app _ _ _ _ _ _ ws1 (w :: ws2) Hr). cbn [loop].
  rewrite (loop_body_used_raise key hostname path mount base interval w usage
             (mkExn ZeroDivisionError "division by zero") Hd).
  - reflexivity.
  - unfold used_percentage, PyFloat.int_truediv. rewrite Ht. reflexivity.
Qed.

Lemma zero_total_fatal_witness :
  main Examples.getenv "nas1" "/data" "data" (Some "http://ha:8123/api")
       Examples.sixty
       ([Examples.world_ok] ++ MoreExamples.world_zero_total
                            :: [Examples.world_ok])
  = ((fst (loop "secret" "nas1" "/data" "data" "http://ha:8123/api"
             Examples.sixty [Examples.world_ok])
        ++ [EDiskUsage "/data"])%list,
     Raised (mkExn ZeroDivisionError "division by zero")).
Proof.
  apply (zero_total_fatal
           Examples.getenv "nas1" "/data" "data" (Some "http://ha:8123/api")
           Examples.sixty "secret" "http://ha:8123/api"
           [Examples.world_ok] MoreExamples.world_zero_total
           [Examples.world_ok] (mkUsage 0 0 0));
    reflexivity.
Defined.

(** X6.  The sleep is outside the [try] block: once an iteration has
    reached it, whatever [time.sleep] raises, an instance of [Exception]
    or not, ends [main], and no later sample is taken. *)
Theorem sleep_failure_fatal (getenv : string -> option string)
    (hostname path mount : string) (ha_rest_api_url : option string)
    (interval : spec_float) (key base : string)
    (ws1 : list World) (w : World) (ws2 : list World) (e : exn) :
  startup getenv ha_rest_api_url interval = ([], Ok (key, base)) ->
  snd (loop key hostname path mount base interval ws1) = Running ->
  sleeps (fst (loop_body key hostname path mount base interval w)) <> [] ->
  time_sleep w interval = Raise e ->
  main getenv hostname path mount ha_rest_api_url interval (ws1 ++ w :: ws2)
  = ((fst (loop key hostname path mount base interval ws1)
        ++ fst (loop_body key hostname path mount base interval w))%list,
     Raised e).
Proof.
  intros Hs Hr Hz He.
  rewrite (main_started _ _ _ _ _ _ _ key base Hs).
  rewrite (loop_app _ _ _ _ _ _ ws1 (w :: ws2) Hr). cbn [loop].
  destruct (loop_body_shape key hostname path mount base interval w)
    as [(e' & B)|[(usage & up & fp & t & e' & Hd & Hp & Hi & B)
                 |(usage & up & fp & t & l & Hd & Ht & Hl & B)]].
  - rewrite B in Hz. contradiction Hz. reflexivity.
  - destruct (report_trace key hostname mount base w
                (json hostname mount usage up fp)) as (_ & _ & Ps & _).
    rewrite Hp in Ps. cbn [fst] in Ps.
    rewrite B in Hz. cbn [fst] in Hz.
    rewrite sleeps_app, Ps in Hz. contradiction Hz. reflexivity.
  - rewrite B, He. reflexivity.
Qed.

Lemma sleep_failure_fatal_witness :
  snd (main Examples.getenv "nas1" "/data" "data" (Some "http://ha:8123/api")
            Examples.sixty
            ([Examples.world_ok] ++ MoreExamples.world_sleep_interrupted
                                 :: [Examples.world_ok]))
  = Raised MoreExamples.sleep_interrupted.
Proof.
  rewrite (sleep_failure_fatal
             Examples.getenv "nas1" "/data" "data" (Some "http://ha:8123/api")
             Examples.sixty "secret" "http://ha:8123/api"
             [Examples.world_ok] MoreExamples.world_sleep_interrupted
             [Examples.world_ok] MoreExamples.sleep_interrupted
             eq_refl eq_refl);
    [reflexivity | vm_compute; discriminate | reflexivity].
Defined.

(** X7.  An exception that is no instance of [Exception], raised by the
    POST or by decoding the response, ends [main] in whatever iteration:
    the trace stops inside the report, with no error log and no sleep for
    that iteration. *)
Theorem report_interrupt_fatal (getenv : string -> option string)
    (hostname path mount : string) (ha_rest_api_url : option string)
    (interval : spec_float) (key base : string)
    (ws1 : list World) (w : World) (ws2 : list World)
    (usage : Usage) (up fp : spec_float) (t : list event) (e : exn) :
  startup getenv ha_rest_api_url interval = ([], Ok (key, base)) ->
  snd (loop key hostname path mount base interval ws1) = Running ->
  shutil_disk_usage w path = Ok usage ->
  used_percentage usage = Ok up ->
  free_percentage usage = Ok fp ->
  report key hostname mount base w (json hostname mount usage up fp)
  = (t, Raise e) ->
  isinstance_Exception e = false ->
  main getenv hostname path mount ha_rest_api_url interval (ws1 ++ w :: ws2)
  = ((fst (loop key hostname path mount base interval ws1)
        ++ [EDiskUsage path;
            posting_log (url hostname mount base)
                        (json hostname mount usage up fp)] ++ t)%list,
     Raised e) /\
  sleeps t = [] /\ filter is_error_log t = [] /\
  posted_urls t = [url hostname mount base].
Proof.
  intros Hs Hr Hd Hu Hf Hp He.
  destruct (report_trace key hostname mount base w
              (json hostname mount usage up fp)) as (Pu & _ & Ps & Pe & _).
  rewrite Hp in Pu, Ps, Pe. cbn [fst] in Pu, Ps, Pe.
  repeat apply conj; try assumption.
  rewrite (main_started _ _ _ _ _ _ _ key base Hs).
  rewrite (loop_app _ _ _ _ _ _ ws1 (w :: ws2) Hr). cbn [loop].
  rewrite (loop_body_report_uncaught key hostname path mount base interval
             w usage up fp t e Hd Hu Hf Hp He).
  reflexivity.
Qed.

Lemma report_interrupt_fatal_witness :
  snd (main Examples.getenv "nas1" "/data" "data" (Some "http://ha:8123/api")
            Examples.sixty
            ([Examples.world_ok] ++ Examples.world_interrupted
                                 :: [Examples.world_ok]))
  = Raised Examples.interrupted.
Proof.
  destruct (report_interrupt_fatal
              Examples.getenv "nas1" "/data" "data" (Some "http://ha:8123/api")
              Examples.sixty "secret" "http://ha:8123/api"
              [Examples.world_ok] Examples.world_interrupted
              [Examples.world_ok] Examples.sample
              (PyFloat.of_Z 40) (PyFloat.of_Z 60)
              [EPost (url "nas1" "data" "http://ha:8123/api")
                     (headers "secret")
                     (json "nas1" "data" Examples.sample
                           (PyFloat.of_Z 40) (PyFloat.of_Z 60))]
              Examples.interrupted
              eq_refl eq_refl eq_refl eq_refl eq_refl eq_refl eq_refl)
    as (H & _).
  rewrite H. reflexivity.
Defined.

(** A loop that is given a world takes a sample. *)
Lemma loop_first_sample (key hostname path mount base : string)
    (interval : spec_float) (w : World) (ws : list World) :
  fst (loop key hostname path mount base interval (w :: ws)) <> [].
Proof.
  cbn [loop].
  destruct (loop_body_counts key hostname path mount base interval w)
    as (p & _ & Pd & _).
  destruct (loop_body key hostname path mount base interval w)
    as [t [[]|e]]; cbn [fst] in *.
  - destruct (loop key hostname path mount base interval ws).
    cbn [fst]. intros E. apply app_eq_nil in E. destruct E as [-> _].
    discriminate Pd.
  - intros ->. discriminate Pd.
Qed.

Lemma gt_zero_iff (x : spec_float) :
  PyFloat.gt_zero x = true <->
  x = S754_infinity false \/ exists m e, x = S754_finite false m e.
Proof.
  unfold PyFloat.gt_zero, PyFloat.zero, SFltb.
  destruct x as [s|s| |s m e]; try destruct s; cbn; split;
    try discriminate; try (intros [H|(m' & e' & H)]; discriminate);
    intros _; eauto.
Qed.

(** X8.  The first disk sample is taken exactly when the key is not empty,
    the URL is not empty and the interval is [> 0]; the intervals that are
    [> 0] are the positive finite floats and plus infinity, so NaN is
    rejected like zero and the negative numbers.  When a check fails,
    [main] ends with the message of the first check that fails, key
    before URL before interval. *)
Theorem startup_exact (getenv : string -> option string)
    (hostname path mount : string) (ha_rest_api_url : option string)
    (interval : spec_float) (w : World) (ws : list World) :
  (fst (main getenv hostname path mount ha_rest_api_url interval (w :: ws))
   <> [] <->
   truthy_str (getenv "HA_API_KEY") = true /\
   truthy_str ha_rest_api_url = true /\
   PyFloat.gt_zero interval = true) /\
  (PyFloat.gt_zero interval = true <->
   interval = S754_infinity false \/
   exists m e, interval = S754_finite false m e) /\
  (fst (main getenv hostname path mount ha_rest_api_url interval (w :: ws))
   = [] ->
   main getenv hostname path mount ha_rest_api_url interval (w :: ws)
   = ([], Raised (mkExn AssertionError
                    (if negb (truthy_str (getenv "HA_API_KEY"))
                     then key_message
                     else if negb (truthy_str ha_rest_api_url)
                          then url_message
                          else interval_message)))).
Proof.
  assert (S : forall key base,
             fst (loop key hostname path mount base interval (w :: ws)) <> [])
    by (intros; apply loop_first_sample).
  split; [|split; [apply gt_zero_iff|]].
  - destruct (truthy_str (getenv "HA_API_KEY")) eqn:Hk.
    + destruct (truthy_str ha_rest_api_url) eqn:Hu.
      * destruct (PyFloat.gt_zero interval) eqn:Hi.
        -- destruct (assert_str_passes _ key_message Hk) as (key & Ek & Nk & _).
           destruct (assert_str_passes _ url_message Hu) as (base & Eb & Nb & _).
           rewrite (main_started _ _ _ _ _ _ _ key base
                      (startup_passes _ _ _ key base Ek Nk Eb Nb Hi)).
           split; [auto | intros _; apply S].
        -- rewrite (main_rejected _ _ _ _ _ _ _ _
                      (startup_interval_rejected _ _ _ Hk Hu Hi)).
           split; [intros H; contradiction H; reflexivity|].
           intros (_ & _ & H). discriminate H.
      * rewrite (main_rejected _ _ _ _ _ _ _ _
                   (startup_url_falsy _ _ _ Hk Hu)).
        split; [intros H; contradiction H; reflexivity|].
        intros (_ & H & _). discriminate H.
    + rewrite (main_rejected _ _ _ _ _ _ _ _ (startup_key_falsy _ _ _ Hk)).
      split; [intros H; contradiction H; reflexivity|].
      intros (H & _). discriminate H.
  - destruct (truthy_str (getenv "HA_API_KEY")) eqn:Hk.
    + destruct (truthy_str ha_rest_api_url) eqn:Hu.
      * destruct (PyFloat.gt_zero interval) eqn:Hi.
        -- destruct (assert_str_passes _ key_message Hk) as (key & Ek & Nk & _).
           destruct (assert_str_passes _ url_message Hu) as (base & Eb & Nb & _).
           rewrite (main_started _ _ _ _ _ _ _ key base
                      (startup_passes _ _ _ key base Ek Nk Eb Nb Hi)).
           intros E. contradiction (S key base E).
        -- intros _. apply main_rejected, startup_interval_rejected; assumption.
      * intros _. apply main_rejected, startup_url_falsy; assumption.
    + intros _. apply main_rejected, startup_key_falsy; assumption.
Qed.

Lemma startup_exact_witness :
  main Examples.getenv "nas1" "/data" "data" (Some "http://ha:8123/api")
       S754_nan [Examples.world_ok]
  = ([], Raised (mkExn AssertionError interval_message)).
Proof.
  destruct (startup_exact Examples.getenv "nas1" "/data" "data"
              (Some "http://ha:8123/api") S754_nan Examples.world_ok [])
    as (_ & _ & H).
  apply H. reflexivity.
Defined.

(** ** More on the percentages *)

Module PercentFacts.
Import PyFloat PyFloatFacts.

Lemma round_half_even_mono (n1 n2 d : Z) :
  0 < d -> n1 <= n2 -> round_half_even n1 d <= round_half_even n2 d.
Proof.
  intros Hd Hn.
  destruct (Z.eq_dec n1 n2) as [->|Ne]; [lia|].
  destruct (round_half_even_cases n1 d Hd) as (q1 & r1 & E1 & B1 & C1).
  destruct (round_half_even_cases n2 d Hd) as (q2 & r2 & E2 & B2 & C2).
  destruct (Z_le_gt_dec q2 q1) as [Hq|Hq].
  - assert (q1 = q2) by nia. subst q2.
    destruct C1 as [[H1 ->]|[[H1 ->]|[H1 ->]]];
      destruct C2 as [[H2 ->]|[[H2 ->]|[H2 ->]]]; lia.
  - destruct C1 as [[H1 ->]|[[H1 ->]|[H1 ->]]];
      destruct C2 as [[H2 ->]|[[H2 ->]|[H2 ->]]]; lia.
Qed.

Lemma round_half_even_exact (n d : Z) :
  0 < d -> n mod d = 0 -> round_half_even n d * d = n.
Proof.
  intros Hd Hm. unfold round_half_even. rewrite Hm.
  replace (2 * 0 ?= d) with Lt by (symmetry; apply Z.compare_lt_iff; lia).
  pose proof (Z.div_mod n d ltac:(lia)). lia.
Qed.

(** The value of a percentage quotient [a / b], [0 < a <= 100 * b]: the
    rounded mantissa over the power of two that scales it. *)
Lemma int_truediv_percent_value (a b : Z) :
  0 < a -> 0 < b < 2 ^ 64 -> a <= 100 * b ->
  let k := 52 - quot_log2 a b in
  let m := round_half_even (a * 2 ^ k) b in
  46 <= k <= 116 /\ 2 ^ 52 <= m <= 2 ^ 53 /\
  exists f,
    int_truediv a b = Ok f /\ (SF2Q f == m # Z.to_pos (2 ^ k))%Q.
Proof.
  intros Ha Hb Hab. cbv zeta.
  pose proof (quot_log2_le_6 a b Ha ltac:(lia) Hab) as R6.
  pose proof (quot_log2_ge_m64 a b Ha Hb) as R64.
  set (r := quot_log2 a b) in *. set (k := 52 - r).
  assert (Hk : 46 <= k <= 116) by (unfold k; lia).
  pose proof (quot_log2_spec a b k Ha ltac:(lia) ltac:(lia)
                ltac:(fold r; unfold k; lia)) as [L U].
  fold r in L, U.
  replace (k + r) with 52 in L by (unfold k; lia).
  replace (k + r + 1) with 53 in U by (unfold k; lia).
  pose proof (pow2_pos k ltac:(lia)) as Pk.
  pose proof (round_half_even_ge (a * 2 ^ k) b (2 ^ 52) ltac:(lia) ltac:(lia))
    as Lo.
  pose proof (round_half_even_le (a * 2 ^ k) b (2 ^ 53) ltac:(lia) ltac:(lia))
    as Hi.
  set (m := round_half_even (a * 2 ^ k) b) in *.
  assert (Q52 : 0 < 2 ^ 52) by reflexivity.
  split; [exact Hk|]. split; [lia|].
  assert (D : divide_pos a b
              = if m =? 2 ^ 53 then (2 ^ 52, 1 - k) else (m, - k)).
  { unfold divide_pos. fold r.
    replace (fexp prec emax (r + 1)) with (- k)
      by (unfold fexp, emin, prec, emax, k; lia).
    unfold quot_round.
    destruct (Z.leb_spec 0 (- k)) as [|_]; [lia|].
    rewrite Z.opp_involutive. fold m. unfold prec.
    change (53 - 1) with 52.
    replace (- k + 1) with (1 - k) by lia. reflexivity. }
  unfold int_truediv.
  destruct (Z.eqb_spec b 0) as [|_]; [lia|].
  destruct (Z.ltb_spec a 0) as [|_]; [lia|].
  destruct (Z.ltb_spec b 0) as [|_]; [lia|].
  destruct (Z.eqb_spec a 0) as [|_]; [lia|].
  rewrite (Z.abs_eq a), (Z.abs_eq b), D by lia. cbn [xorb].
  destruct (Z.eqb_spec m (2 ^ 53)) as [Em|Em].
  - destruct (Z.ltb_spec (emax - prec) (1 - k)) as [Hov|_];
      [unfold emax, prec in Hov; lia|].
    exists (S754_finite false (Z.to_pos (2 ^ 52)) (1 - k)).
    split; [reflexivity|].
    rewrite SF2Q_neg_exp by lia.
    replace (- (1 - k)) with (k - 1) by lia.
    pose proof (pow2_pos (k - 1) ltac:(lia)) as Pk'.
    assert (Pk1 : 2 ^ k = 2 * 2 ^ (k - 1)).
    { replace k with (1 + (k - 1)) at 1 by lia.
      rewrite pow2_add by lia. reflexivity. }
    unfold Qeq; cbn [Qnum Qden]. rewrite !Z2Pos.id by lia.
    rewrite Em, Pk1. change (2 ^ 53) with (2 * 2 ^ 52). ring.
  - destruct (Z.ltb_spec (emax - prec) (- k)) as [Hov|_];
      [unfold emax, prec in Hov; lia|].
    exists (S754_finite false (Z.to_pos m) (- k)).
    split; [destruct m; try lia; reflexivity|].
    rewrite SF2Q_neg_exp by lia. rewrite Z.opp_involutive. reflexivity.
Qed.

Lemma quot_log2_mono (a1 a2 b : Z) :
  0 < a1 -> a1 <= a2 -> 0 < b < 2 ^ 64 -> a2 <= 100 * b ->
  quot_log2 a1 b <= quot_log2 a2 b.
Proof.
  intros H1 H12 Hb H2.
  pose proof (quot_log2_ge_m64 a1 b H1 Hb).
  pose proof (quot_log2_ge_m64 a2 b ltac:(lia) Hb).
  pose proof (quot_log2_spec a1 b 64 H1 ltac:(lia) ltac:(lia) ltac:(lia))
    as [L1 _].
  pose proof (quot_log2_spec a2 b 64 ltac:(lia) ltac:(lia) ltac:(lia)
                ltac:(lia)) as [_ U2].
  destruct (Z_le_gt_dec (quot_log2 a1 b) (quot_log2 a2 b)) as [|Hgt];
    [assumption|exfalso].
  pose proof (pow2_le_mono (64 + quot_log2 a2 b + 1) (64 + quot_log2 a1 b)
                ltac:(lia)) as P.
  pose proof (pow2_pos 64 ltac:(lia)). nia.
Qed.

(** The quotient of a percentage is monotone in its numerator. *)
Lemma int_truediv_percent_mono (a1 a2 b : Z) :
  0 <= a1 -> a1 <= a2 -> 0 < b < 2 ^ 64 -> a2 <= 100 * b ->
  exists f1 f2,
    int_truediv a1 b = Ok f1 /\ int_truediv a2 b = Ok f2 /\
    (SF2Q f1 <= SF2Q f2)%Q.
Proof.
  intros H1 H12 Hb H2.
  destruct (int_truediv_percent a2 b ltac:(lia) Hb H2)
    as (f2 & E2 & _ & [B2 _] & _).
  destruct (Z.eq_dec a1 0) as [->|N1].
  - exists (S754_zero false), f2. repeat split; try assumption.
    unfold int_truediv.
    destruct (Z.eqb_spec b 0) as [|_]; [lia|].
    destruct (Z.ltb_spec b 0) as [|_]; [lia|]. reflexivity.
  - destruct (int_truediv_percent_value a1 b ltac:(lia) Hb ltac:(lia))
      as (K1 & M1 & f1 & E1 & V1).
    destruct (int_truediv_percent_value a2 b ltac:(lia) Hb H2)
      as (K2 & M2 & f2' & E2' & V2).
    rewrite E2 in E2'. injection E2' as <-.
    exists f1, f2. repeat split; try assumption.
    rewrite V1, V2.
    pose proof (quot_log2_mono a1 a2 b ltac:(lia) H12 Hb H2) as R.
    set (k1 := 52 - quot_log2 a1 b) in *.
    set (k2 := 52 - quot_log2 a2 b) in *.
    set (m1 := round_half_even (a1 * 2 ^ k1) b) in *.
    set (m2 := round_half_even (a2 * 2 ^ k2) b) in *.
    pose proof (pow2_pos k1 ltac:(lia)) as P1.
    pose proof (pow2_pos k2 ltac:(lia)) as P2.
    unfold Qle; cbn [Qnum Qden]. rewrite !Z2Pos.id by lia.
    destruct (Z.eq_dec k1 k2) as [Ek|Nk].
    + assert (m1 <= m2).
      { unfold m1, m2. rewrite Ek. apply round_half_even_mono; [lia|].
        apply Z.mul_le_mono_nonneg_r; lia. }
      rewrite Ek. nia.
    + assert (Hk : k2 + 1 <= k1) by (unfold k1, k2 in *; lia).
      pose proof (pow2_le_mono (k2 + 1) k1 ltac:(lia)) as P.
      rewrite pow2_add in P by lia. change (2 ^ 1) with 2 in P.
      assert (T : 2 ^ 53 = 2 * 2 ^ 52) by reflexivity.
      assert (Q52 : 0 < 2 ^ 52) by reflexivity.
      nia.
Qed.

(** A percentage that is a whole number is computed exactly. *)
Lemma int_truediv_percent_exact (a b : Z) :
  0 <= a -> 0 < b < 2 ^ 64 -> a <= 100 * b -> a mod b = 0 ->
  exists f,
    int_truediv a b = Ok f /\ (SF2Q f == inject_Z a / inject_Z b)%Q.
Proof.
  intros Ha Hb Hab Hm.
  destruct (Z.eq_dec a 0) as [->|Na].
  - exists (S754_zero false).
    split; [|rewrite Qdiv_inject by lia; reflexivity].
    unfold int_truediv.
    destruct (Z.eqb_spec b 0) as [|_]; [lia|].
    destruct (Z.ltb_spec b 0) as [|_]; [lia|]. reflexivity.
  - destruct (int_truediv_percent_value a b ltac:(lia) Hb Hab)
      as (K & M & f & E & V).
    exists f. split; [exact E|]. rewrite V, Qdiv_inject by lia.
    set (k := 52 - quot_log2 a b) in *.
    pose proof (pow2_pos k ltac:(lia)) as Pk.
    assert (X : round_half_even (a * 2 ^ k) b * b = a * 2 ^ k).
    { apply round_half_even_exact; [lia|].
      rewrite <- Z.mul_mod_idemp_l by lia. rewrite Hm. reflexivity. }
    unfold Qeq; cbn [Qnum Qden]. rewrite !Z2Pos.id by lia. exact X.
Qed.

End PercentFacts.

(** X9.  A fuller disk never reports a lower percentage: of two valid
    samples of the same total, the one with more bytes used has the used
    percentage that is greater or equal, and likewise for the bytes free
    and the free percentage. *)
Theorem percentages_monotone (u1 u2 : Usage) :
  valid_sample u1 = true -> valid_sample u2 = true ->
  total u1 = total u2 ->
  (used u1 <= used u2 ->
   exists p1 p2,
     used_percentage u1 = Ok p1 /\ used_percentage u2 = Ok p2 /\
     (PyFloat.SF2Q p1 <= PyFloat.SF2Q p2)%Q) /\
  (free u1 <= free u2 ->
   exists p1 p2,
     free_percentage u1 = Ok p1 /\ free_percentage u2 = Ok p2 /\
     (PyFloat.SF2Q p1 <= PyFloat.SF2Q p2)%Q).
Proof.
  intros V1 V2 Et.
  apply valid_sample_spec in V1. apply valid_sample_spec in V2.
  unfold used_percentage, free_percentage. rewrite Et.
  split; intros H; apply PercentFacts.int_truediv_percent_mono; lia.
Qed.

Lemma percentages_monotone_witness :
  exists p1 p2,
    used_percentage Examples.sample = Ok p1 /\
    used_percentage (mkUsage 1000 401 599) = Ok p2 /\
    (PyFloat.SF2Q p1 <= PyFloat.SF2Q p2)%Q.
Proof.
  apply (proj1 (percentages_monotone Examples.sample (mkUsage 1000 401 599)
                  eq_refl eq_refl eq_refl)).
  cbn. lia.
Defined.

(** X10.  A percentage that is a whole number is reported exactly: when
    the total divides [used * 100] the used percentage is that quotient
    with no rounding error, and likewise for the free percentage; so a
    full disk reports exactly 100.0 and an unused one exactly 0.0. *)
Theorem whole_percentages_exact (usage : Usage) :
  valid_sample usage = true ->
  ((used usage * 100) mod total usage = 0 ->
   exists up,
     used_percentage usage = Ok up /\
     (PyFloat.SF2Q up == exact_percentage (used usage) (total usage))%Q) /\
  ((free usage * 100) mod total usage = 0 ->
   exists fp,
     free_percentage usage = Ok fp /\
     (PyFloat.SF2Q fp == exact_percentage (free usage) (total usage))%Q) /\
  (used usage = total usage ->
   exists up, used_percentage usage = Ok up /\ (PyFloat.SF2Q up == 100)%Q) /\
  (used usage = 0 -> used_percentage usage = Ok PyFloat.zero).
Proof.
  intros V. apply valid_sample_spec in V. destruct V as (Hu & Hf & Ht & Hs).
  unfold used_percentage, free_percentage, exact_percentage.
  repeat apply conj.
  - intros Hm. apply PercentFacts.int_truediv_percent_exact; lia.
  - intros Hm. apply PercentFacts.int_truediv_percent_exact; lia.
  - intros E. rewrite E.
    destruct (PercentFacts.int_truediv_percent_exact
                (total usage * 100) (total usage))
      as (up & Eu & Vu); try lia.
    { rewrite Z.mul_comm. apply Z.mod_mul. lia. }
    exists up. split; [exact Eu|]. rewrite Vu.
    rewrite PyFloatFacts.Qdiv_inject by lia.
    unfold Qeq; cbn [Qnum Qden inject_Z]. rewrite Z2Pos.id by lia. ring.
  - intros E. rewrite E. unfold PyFloat.int_truediv.
    destruct (Z.eqb_spec (total usage) 0) as [|_]; [lia|].
    destruct (Z.ltb_spec (total usage) 0) as [|_]; [lia|]. reflexivity.
Qed.

Lemma whole_percentages_exact_witness :
  exists up,
    used_percentage (mkUsage 1000 1000 0) = Ok up /\
    (PyFloat.SF2Q up == 100)%Q.
Proof.
  apply (proj1 (proj2 (proj2 (whole_percentages_exact (mkUsage 1000 1000 0)
                                eq_refl)))).
  reflexivity.
Defined.

(** ** The script block *)

Lemma nameToLevel_Level (s : string) :
  logging.nameToLevel ("Level " ++ s) = None.
Proof. reflexivity. Qed.

Lemma basicConfig_getLevelName (s : string) :
  logging.basicConfig (logging.getLevelName s) =
  match logging.nameToLevel s with
  | Some n => Ok n
  | None =>
      Raise (mkExn (OtherException "ValueError")
               ("Unknown level: '" ++ ("Level " ++ s) ++ "'"))
  end.
Proof.
  unfold logging.getLevelName.
  destruct (logging.nameToLevel s) as [n|]; [reflexivity|].
  cbn [logging.basicConfig]. rewrite nameToLevel_Level. reflexivity.
Qed.

(** [main] reads the environment at [HA_API_KEY] and nowhere else. *)
Lemma main_getenv_ext (getenv getenv' : string -> option string)
    (hostname path mount : string) (ha_rest_api_url : option string)
    (interval : spec_float) (ws : list World) :
  getenv "HA_API_KEY" = getenv' "HA_API_KEY" ->
  main getenv hostname path mount ha_rest_api_url interval ws
  = main getenv' hostname path mount ha_rest_api_url interval ws.
Proof. intros E. unfold main, startup. rewrite E. reflexivity. Qed.

(** The script is [main] on the parsed arguments, or ends at the logging
    set-up with an empty trace. *)
Lemma script_cases (getenv : string -> option string) (gethostname : string)
    (cl : CommandLine) (ws : list World) :
  (exists e, script getenv gethostname cl ws = ([], Raised e)) \/
  script getenv gethostname cl ws
  = main getenv
         (args_hostname (parse_args getenv gethostname cl))
         (cl_path cl) (cl_mount cl)
         (args_ha_rest_api_url (parse_args getenv gethostname cl))
         (args_interval (parse_args getenv gethostname cl)) ws.
Proof.
  unfold script.
  destruct (logging.basicConfig
              (args_log_level (parse_args getenv gethostname cl))) as [n|e].
  - right. reflexivity.
  - left. exists e. reflexivity.
Qed.

(** The error records of a run are the reports of caught exceptions. *)
Lemma loop_error_logs (key hostname path mount base : string)
    (interval : spec_float) (ws : list World) :
  Forall (fun ev => exists e, ev = exception_log e)
         (filter is_error_log
                 (fst (loop key hostname path mount base interval ws))).
Proof.
  induction ws as [|w ws IH]; cbn [loop]; [constructor|].
  assert (B : Forall (fun ev => exists e, ev = exception_log e)
                (filter is_error_log
                   (fst (loop_body key hostname path mount base interval w)))).
  { destruct (loop_body_shape key hostname path mount base interval w)
      as [(e & B)|[(usage & up & fp & t & e & Hd & Hr & He & B)
                  |(usage & up & fp & t & l & Hd & Ht & Hl & B)]];
      rewrite B; cbn [fst].
    - constructor.
    - destruct (report_trace key hostname mount base w
                  (json hostname mount usage up fp)) as (_ & _ & _ & Pe & _).
      rewrite Hr in Pe. cbn [fst] in Pe.
      rewrite filter_app, Pe. constructor.
    - destruct (report_trace key hostname mount base w
                  (json hostname mount usage up fp)) as (_ & _ & _ & Pe & _).
      rewrite Ht in Pe.
      rewrite !filter_app, Pe.
      destruct Hl as [->|[e ->]]; cbn; repeat constructor. eauto. }
  destruct (loop_body key hostname path mount base interval w)
    as [t [[]|e]]; cbn [fst] in *; [|exact B].
  destruct (loop key hostname path mount base interval ws) as [t' o].
  cbn [fst] in *. rewrite filter_app. apply Forall_app. split; assumption.
Qed.

Lemma emitted_INFO (t : list event) :
  logging.emitted logging.INFO t = filter is_error_log t.
Proof.
  unfold logging.emitted. apply filter_ext.
  intros [p|[] fmt args|u h j|s]; reflexivity.
Qed.

(** X11.  A [--log-level] that is not one of the eight upper-case level
    names (so [debug], or a number such as [10]) makes the script fail
    with a [ValueError] at the logging set-up, before [main]: nothing is
    sampled or posted.  With a known name, or without the option, the
    script is [main] on the parsed arguments. *)
Theorem unknown_log_level_fatal (getenv : string -> option string)
    (gethostname : string) (cl : CommandLine) (ws : list World) :
  (forall s,
      cl_log_level cl = Some s -> logging.nameToLevel s = None ->
      exists msg,
        script getenv gethostname cl ws
        = ([], Raised (mkExn (OtherException "ValueError") msg))) /\
  ((cl_log_level cl = None \/
    exists s n, cl_log_level cl = Some s /\ logging.nameToLevel s = Some n) ->
   script getenv gethostname cl ws
   = main getenv
          (args_hostname (parse_args getenv gethostname cl))
          (cl_path cl) (cl_mount cl)
          (args_ha_rest_api_url (parse_args getenv gethostname cl))
          (args_interval (parse_args getenv gethostname cl)) ws) /\
  logging.nameToLevel "debug" = None /\
  logging.nameToLevel "10" = None /\
  logging.nameToLevel "DEBUG" = Some 10.
Proof.
  repeat apply conj; try reflexivity.
  - intros s Es Hn. unfold script, parse_args. cbn [args_log_level].
    rewrite Es, basicConfig_getLevelName, Hn. eexists. reflexivity.
  - intros [En|(s & n & Es & Hn)]; unfold script, parse_args;
      cbn [args_log_level args_hostname args_path args_mount
           args_ha_rest_api_url args_interval].
    + rewrite En. reflexivity.
    + rewrite Es, basicConfig_getLevelName, Hn. reflexivity.
Qed.

Lemma unknown_log_level_fatal_witness :
  exists msg,
    script MoreExamples.getenv_both "nas1" MoreExamples.lowercase_level
           [Examples.world_ok]
    = ([], Raised (mkExn (OtherException "ValueError") msg)).
Proof.
  apply (proj1 (unknown_log_level_fatal
                  MoreExamples.getenv_both "nas1"
                  MoreExamples.lowercase_level [Examples.world_ok])
           "debug"); reflexivity.
Defined.

(** X12.  Every URL the script posts to is built from the host name of
    [--hostname], or of the machine when the option is absent, the mount
    of the command line, and the base URL of [--ha-rest-api-url], or of
    the variable [HA_REST_API_URL] when the option is absent; the base is
    never empty. *)
Theorem script_posted_url (getenv : string -> option string)
    (gethostname : string) (cl : CommandLine) (ws : list World) (u : string) :
  In u (posted_urls (fst (script getenv gethostname cl ws))) ->
  exists hostname base,
    (cl_hostname cl = Some hostname \/
     cl_hostname cl = None /\ hostname = gethostname) /\
    (cl_ha_rest_api_url cl = Some base \/
     cl_ha_rest_api_url cl = None /\ getenv "HA_REST_API_URL" = Some base) /\
    base <> EmptyString /\
    u = url hostname (cl_mount cl) base.
Proof.
  intros Hin.
  destruct (script_cases getenv gethostname cl ws) as [(e & E)|E];
    rewrite E in Hin; [destruct Hin|].
  set (args := parse_args getenv gethostname cl) in *.
  destruct (startup_cases getenv (args_ha_rest_api_url args)
              (args_interval args))
    as [(msg & S)|(key & base & _ & _ & Eb & Nb & _ & S)].
  - rewrite (main_rejected _ _ _ _ _ _ _ _ S) in Hin. destruct Hin.
  - rewrite (main_started _ _ _ _ _ _ _ key base S) in Hin.
    pose proof (loop_posts_only_url key (args_hostname args) (cl_path cl)
                  (cl_mount cl) base (args_interval args) ws) as F.
    rewrite Forall_forall in F. specialize (F u Hin).
    exists (args_hostname args), base.
    unfold args, parse_args in Eb |- *.
    cbn [args_hostname args_ha_rest_api_url] in Eb |- *.
    repeat apply conj; try assumption.
    + destruct (cl_hostname cl); [left|right]; auto.
    + destruct (cl_ha_rest_api_url cl); [left|right]; auto.
Qed.

Lemma script_posted_url_witness :
  exists hostname base,
    (cl_hostname MoreExamples.with_flags = Some hostname \/
     cl_hostname MoreExamples.with_flags = None /\ hostname = "host0") /\
    "http://other/api/states/sensor.nas1_data_disk_usage"
    = url hostname "data" base.
Proof.
  assert (H : In "http://other/api/states/sensor.nas1_data_disk_usage"
                 (posted_urls
                    (fst (script MoreExamples.getenv_both "host0"
                                 MoreExamples.with_flags
                                 [Examples.world_ok])))).
  { vm_compute. left. reflexivity. }
  destruct (script_posted_url MoreExamples.getenv_both "host0"
              MoreExamples.with_flags [Examples.world_ok]
              "http://other/api/states/sensor.nas1_data_disk_usage" H)
    as (hostname & base & Hh & _ & _ & Hu).
  exists hostname, base. split; assumption.
Defined.

(** X13.  When [--ha-rest-api-url] is given, the variable
    [HA_REST_API_URL] plays no part: two environments with the same key
    give the same run.  In particular an empty value of the option is
    rejected at start-up even when the variable holds a URL. *)
Theorem url_flag_overrides_environment (getenv getenv' : string -> option string)
    (gethostname : string) (cl : CommandLine) (ws : list World) (u : string) :
  cl_ha_rest_api_url cl = Some u ->
  getenv "HA_API_KEY" = getenv' "HA_API_KEY" ->
  script getenv gethostname cl ws = script getenv' gethostname cl ws /\
  (u = EmptyString -> fst (script getenv gethostname cl ws) = []) /\
  (u = EmptyString -> cl_log_level cl = None ->
   truthy_str (getenv "HA_API_KEY") = true ->
   script getenv gethostname cl ws
   = ([], Raised (mkExn AssertionError url_message))).
Proof.
  intros Eu Ek.
  assert (P : args_ha_rest_api_url (parse_args getenv gethostname cl) = Some u).
  { unfold parse_args. cbn. rewrite Eu. reflexivity. }
  repeat apply conj.
  - unfold script, parse_args.
    cbn [args_log_level args_hostname args_path args_mount
         args_ha_rest_api_url args_interval].
    rewrite Eu.
    destruct (logging.basicConfig
                match cl_log_level cl with
                | Some s => logging.getLevelName s
                | None => inl logging.INFO
                end); [|reflexivity].
    apply main_getenv_ext, Ek.
  - intros ->.
    destruct (script_cases getenv gethostname cl ws) as [(e & E)|E];
      rewrite E; [reflexivity|]. rewrite P.
    destruct (truthy_str (getenv "HA_API_KEY")) eqn:Hk.
    + rewrite (main_rejected _ _ _ _ _ _ _ _
                 (startup_url_falsy getenv (Some EmptyString) _ Hk eq_refl)).
      reflexivity.
    + rewrite (main_rejected _ _ _ _ _ _ _ _
                 (startup_key_falsy getenv (Some EmptyString) _ Hk)).
      reflexivity.
  - intros -> El Hk. unfold script.
    replace (args_log_level (parse_args getenv gethostname cl))
      with (@inl Z string logging.INFO)
      by (unfold parse_args; cbn; rewrite El; reflexivity).
    cbn [logging.basicConfig]. rewrite P.
    apply main_rejected, startup_url_falsy; [assumption | reflexivity].
Qed.

Lemma url_flag_overrides_environment_witness :
  script MoreExamples.getenv_both "nas1" MoreExamples.empty_url_flag
         [Examples.world_ok]
  = ([], Raised (mkExn AssertionError url_message)).
Proof.
  destruct (url_flag_overrides_environment
              MoreExamples.getenv_both MoreExamples.getenv_both "nas1"
              MoreExamples.empty_url_flag [Examples.world_ok] EmptyString
              eq_refl eq_refl)
    as (_ & _ & H).
  apply H; reflexivity.
Defined.

(** X14.  Without [--interval] every sleep of the script lasts 60.0
    seconds, and with key and URL configured and the other options left
    out the script gets past the start-up checks and takes its first
    sample. *)
Theorem default_interval_accepted (getenv : string -> option string)
    (gethostname : string) (cl : CommandLine) (w : World) (ws : list World) :
  cl_interval cl = None ->
  (PyFloat.SF2Q default_interval == 60)%Q /\
  Forall (fun s => s = default_interval)
         (sleeps (fst (script getenv gethostname cl (w :: ws)))) /\
  (cl_log_level cl = None ->
   truthy_str (getenv "HA_API_KEY") = true ->
   truthy_str (args_ha_rest_api_url (parse_args getenv gethostname cl)) = true ->
   fst (script getenv gethostname cl (w :: ws)) <> []).
Proof.
  intros Ei.
  assert (P : args_interval (parse_args getenv gethostname cl)
              = default_interval).
  { unfold parse_args. cbn. rewrite Ei. reflexivity. }
  repeat apply conj.
  - vm_compute. reflexivity.
  - destruct (script_cases getenv gethostname cl (w :: ws)) as [(e & E)|E];
      rewrite E; [constructor|]. rewrite P.
    set (args := parse_args getenv gethostname cl).
    destruct (startup_cases getenv (args_ha_rest_api_url args) default_interval)
      as [(msg & S)|(key & base & _ & _ & _ & _ & _ & S)].
    + rewrite (main_rejected _ _ _ _ _ _ _ _ S). constructor.
    + rewrite (main_started _ _ _ _ _ _ _ key base S).
      destruct (loop_counts key (args_hostname args) (cl_path cl)
                  (cl_mount cl) base default_interval (w :: ws))
        as (p & _ & _ & _ & Hs & _).
      exact Hs.
  - intros El Hk Hu. unfold script.
    replace (args_log_level (parse_args getenv gethostname cl))
      with (@inl Z string logging.INFO)
      by (unfold parse_args; cbn; rewrite El; reflexivity).
    cbn [logging.basicConfig]. rewrite P.
    set (args := parse_args getenv gethostname cl) in *.
    destruct (assert_str_passes _ key_message Hk) as (key & Ek & Nk & _).
    destruct (assert_str_passes _ url_message Hu) as (base & Eb & Nb & _).
    rewrite (main_started _ _ _ _ _ _ _ key base
               (startup_passes getenv (args_ha_rest_api_url args)
                  default_interval key base Ek Nk Eb Nb eq_refl)).
    apply loop_first_sample.
Qed.

Lemma default_interval_accepted_witness :
  fst (script MoreExamples.getenv_both "nas1" MoreExamples.plain
              (Examples.world_ok :: [])) <> [].
Proof.
  destruct (default_interval_accepted MoreExamples.getenv_both "nas1"
              MoreExamples.plain Examples.world_ok [] eq_refl)
    as (_ & _ & H).
  apply H; reflexivity.
Defined.

(** X15.  Without [--log-level] the root logger is at [INFO]: of the log
    calls of a run only the error records pass, and each of them is the
    report of a caught exception, so a run in which no report fails logs
    nothing. *)
Theorem default_level_logs_errors_only (getenv : string -> option string)
    (gethostname : string) (cl : CommandLine) (ws : list World) :
  cl_log_level cl = None ->
  root_level cl = Ok logging.INFO /\
  logging.basicConfig (args_log_level (parse_args getenv gethostname cl))
  = root_level cl /\
  logging.emitted logging.INFO (fst (script getenv gethostname cl ws))
  = filter is_error_log (fst (script getenv gethostname cl ws)) /\
  Forall (fun ev => exists e, ev = exception_log e)
         (logging.emitted logging.INFO
                          (fst (script getenv gethostname cl ws))).
Proof.
  intros El. repeat apply conj.
  - unfold root_level. rewrite El. reflexivity.
  - reflexivity.
  - apply emitted_INFO.
  - rewrite emitted_INFO.
    destruct (script_cases getenv gethostname cl ws) as [(e & E)|E];
      rewrite E; [constructor|].
    set (args := parse_args getenv gethostname cl).
    destruct (startup_cases getenv (args_ha_rest_api_url args)
                (args_interval args))
      as [(msg & S)|(key & base & _ & _ & _ & _ & _ & S)].
    + rewrite (main_rejected _ _ _ _ _ _ _ _ S). constructor.
    + rewrite (main_started _ _ _ _ _ _ _ key base S).
      apply loop_error_logs.
Qed.

Lemma default_level_logs_errors_only_witness :
  logging.emitted logging.INFO
    (fst (script MoreExamples.getenv_both "nas1" MoreExamples.plain
                 [Examples.world_ok; Examples.world_refused]))
  = [exception_log Examples.refused].
Proof.
  destruct (default_level_logs_errors_only MoreExamples.getenv_both "nas1"
              MoreExamples.plain [Examples.world_ok; Examples.world_refused]
              eq_refl)
    as (_ & _ & H & _).
  rewrite H. reflexivity.
Defined.
